(** * OCR text extraction service: model of [main.py] and its properties

    The service is a FastAPI application with three routes.  The model
    below follows [main.py] function by function:

    - Python values: [str] is [string] (code points 0..255), [bytes] is
      [list byte], [Optional[str]] is [option string], [int] is [Z],
      the two confidence literals are binary64 floats;
    - [raise HTTPException(...)] is the left summand of the result of a
      computation in the monad [M], which also threads the [World]: the
      list of images sent to the Vision provider and the log records
      written so far;
    - the Vision client is an [option] of a provider whose answer may
      depend on the requests it has already received; the module
      [Raising] has the handler for a provider whose call can also
      raise;
    - the clock is not modelled: the handlers take the values read from
      it ([processing_time_ms], [timestamp]) as arguments. *)

From Stdlib Require Import ZArith List String Ascii Strings.Byte Bool Lia.
From Stdlib Require Import Floats.PrimFloat.
Import ListNotations.

(* Python rounds the literal 0.95 to the nearest binary64 value, as the
   float notation does here. *)
Set Warnings "-inexact-float".

Local Open Scope string_scope.
Local Open Scope Z_scope.

(** ** Python built-ins used by [main.py] *)

Module Py.

Definition bytes := list byte.

(** [len(b)] *)
Definition len (b : bytes) : Z := Z.of_nat (List.length b).

(** Truth value of a [str] and of an [Optional[str]]. *)
Definition truthy (s : string) : bool :=
  match s with EmptyString => false | String _ _ => true end.

Definition truthy_opt (o : option string) : bool :=
  match o with None => false | Some s => truthy s end.

(** [f"{x}"] for an [Optional[str]]. *)
Definition format_opt (o : option string) : string :=
  match o with None => "None" | Some s => s end.

(** [x in xs] for a list of strings. *)
Definition str_in (s : string) (xs : list string) : bool :=
  existsb (String.eqb s) xs.

Definition opt_in (o : option string) (xs : list string) : bool :=
  match o with None => false | Some s => str_in s xs end.

(** [str.lower] on one code point below 256: the upper-case letters
    are A-Z, and in the Latin-1 block U+00C0..U+00DE without U+00D7;
    each is mapped 32 places up. *)
Definition lower_char (c : ascii) : ascii :=
  let n := N_of_ascii c in
  if ((65 <=? n) && (n <=? 90))%N
     || ((192 <=? n) && (n <=? 222) && negb (n =? 215))%N
  then ascii_of_N (n + 32) else c.

Fixpoint lower (s : string) : string :=
  match s with
  | EmptyString => EmptyString
  | String c s' => String (lower_char c) (lower s')
  end.

(** [s.rfind(c)] for a one-character [c], with the index of the first
    character of [s] given as [i]: the highest index holding [c],
    or -1. *)
Fixpoint rfind_from (c : ascii) (s : string) (i : Z) : Z :=
  match s with
  | EmptyString => -1
  | String a s' =>
      let r := rfind_from c s' (i + 1) in
      if 0 <=? r then r else if Ascii.eqb a c then i else -1
  end.

Definition rfind (c : ascii) (s : string) : Z := rfind_from c s 0.

(** Slices [p[:n]] and [p[n:]] for [0 <= n]. *)
Fixpoint take (n : nat) (s : string) : string :=
  match n, s with
  | S n', String a s' => String a (take n' s')
  | _, _ => EmptyString
  end.

Fixpoint drop (n : nat) (s : string) : string :=
  match n, s with
  | S n', String _ s' => drop n' s'
  | _, _ => s
  end.

(** [p[i:i+1]] for [0 <= i]. *)
Definition char_at (i : Z) (p : string) : string :=
  take 1 (drop (Z.to_nat i) p).

(** The loop of [genericpath._splitext] that skips the leading dots of
    the last path component: [true] when a character other than the
    dot stands before [dotIndex].  [fuel] bounds the iterations. *)
Fixpoint has_stem (fuel : nat) (p : string) (filenameIndex dotIndex : Z)
  : bool :=
  match fuel with
  | O => false
  | S fuel' =>
      if filenameIndex <? dotIndex then
        if negb (String.eqb (char_at filenameIndex p) ".")
        then true
        else has_stem fuel' p (filenameIndex + 1) dotIndex
      else false
  end.

(** [os.path.splitext] of [posixpath]: separator "/", no alternative
    separator, extension separator ".". *)
Definition splitext (p : string) : string * string :=
  let sepIndex := rfind "/" p in
  let dotIndex := rfind "." p in
  if (sepIndex <? dotIndex)
     && has_stem (String.length p) p (sepIndex + 1) dotIndex
  then (take (Z.to_nat dotIndex) p, drop (Z.to_nat dotIndex) p)
  else (p, EmptyString).

(** [needle in haystack] for strings. *)
Fixpoint prefix_of (a b : string) : bool :=
  match a, b with
  | EmptyString, _ => true
  | String x a', String y b' => Ascii.eqb x y && prefix_of a' b'
  | String _ _, EmptyString => false
  end.

Fixpoint contains (needle hay : string) : bool :=
  prefix_of needle hay
  || match hay with
     | EmptyString => false
     | String _ hay' => contains needle hay'
     end.

End Py.

(** ** The Vision provider, as far as [main.py] uses it *)

Module Vision.

Record EntityAnnotation := { description : string }.

Record Status := { message : string }.

Record AnnotateImageResponse := {
  error : Status;
  text_annotations : list EntityAnnotation
}.

(** [ImageAnnotatorClient.text_detection]: the answer to an image,
    given the images the provider has received before it. *)
Definition ImageAnnotatorClient :=
  list Py.bytes -> Py.bytes -> AnnotateImageResponse.

End Vision.

(** ** Effects: raised exceptions, provider calls, log records *)

Record HTTPException := {
  status_code : Z;
  detail : string
}.

Inductive LogLevel := INFO | ERROR.

Record World := {
  provider_calls : list Py.bytes;
  log : list (LogLevel * string)
}.

Definition M (A : Type) : Type := World -> (HTTPException + A) * World.

Definition ret {A} (a : A) : M A := fun w => (inr a, w).

Definition bind {A B} (c : M A) (k : A -> M B) : M B :=
  fun w =>
    match c w with
    | (inl e, w') => (inl e, w')
    | (inr a, w') => k a w'
    end.

Definition raise {A} (e : HTTPException) : M A := fun w => (inl e, w).

Declare Scope m_scope.
Delimit Scope m_scope with M.
Notation "x <- c ;; k" := (bind c (fun x => k))
  (at level 61, c at next level, right associativity) : m_scope.
Notation "c ;; k" := (bind c (fun _ => k))
  (at level 61, right associativity) : m_scope.
Local Open Scope m_scope.

Definition logger_info (msg : string) : M unit :=
  fun w => (inr tt, {| provider_calls := provider_calls w;
                       log := (log w ++ [(INFO, msg)])%list |}).

Definition logger_error (msg : string) : M unit :=
  fun w => (inr tt, {| provider_calls := provider_calls w;
                       log := (log w ++ [(ERROR, msg)])%list |}).

(** The call of a provider that returns; the call that raises is in
    the module [Raising] below. *)
Definition text_detection (client : Vision.ImageAnnotatorClient)
  (image : Py.bytes) : M Vision.AnnotateImageResponse :=
  fun w => (inr (client (provider_calls w) image),
            {| provider_calls := (provider_calls w ++ [image])%list;
               log := log w |}).

(** ** Constants and response models *)

Definition MAX_FILE_SIZE : Z := 10 * 1024 * 1024.
Definition ALLOWED_CONTENT_TYPES : list string := ["image/jpeg"; "image/jpg"].
Definition ALLOWED_EXTENSIONS : list string := [".jpg"; ".jpeg"].

Record UploadFile := {
  content_type : option string;
  filename : option string;
  file : Py.bytes
}.

Record MetadataModel := {
  md_filename : option string;
  md_file_size_bytes : Z;
  md_content_type : option string
}.

Record SuccessResponseModel := {
  success : bool;
  text : string;
  confidence : float;
  processing_time_ms : Z;
  metadata : MetadataModel
}.

Record ErrorResponseModel := {
  err_success : bool;
  err_error : string;
  err_detail : string;
  err_processing_time_ms : Z
}.

Record ApiInfoModel := {
  service : string;
  api_status : string;
  version : string;
  endpoints : list (string * string)
}.

Record HealthResponseModel := {
  status : string;
  vision_api : string;
  timestamp : float
}.

(** ** Helper functions and endpoints *)

Section App.

(** The module-level [vision_client], set once by [lifespan]. *)
Variable vision_client : option Vision.ImageAnnotatorClient.

Definition validate_image (f : UploadFile) : M unit :=
  if negb (Py.opt_in (content_type f) ALLOWED_CONTENT_TYPES) then
    raise {| status_code := 400;
             detail := "Invalid file format. Only JPG/JPEG images are supported. "
                       ++ "Received: " ++ Py.format_opt (content_type f) |}
  else
  match filename f with
  | None => raise {| status_code := 400; detail := "Filename is required" |}
  | Some name =>
      if negb (Py.truthy name) then
        raise {| status_code := 400; detail := "Filename is required" |}
      else
        let extension := Py.lower (snd (Py.splitext name)) in
        if negb (Py.str_in extension ALLOWED_EXTENSIONS) then
          raise {| status_code := 400;
                   detail := "Invalid file extension. Only .jpg and .jpeg are supported. "
                             ++ "Received: " ++ extension |}
        else ret tt
  end.

Definition extract_text_from_image (image_content : Py.bytes)
  : M (string * float) :=
  match vision_client with
  | None =>
      logger_error "Vision API client not initialized" ;;
      raise {| status_code := 503;
               detail := "Vision API service unavailable" |}
  | Some client =>
      match image_content with
      | [] => raise {| status_code := 400; detail := "Empty image content" |}
      | _ :: _ =>
          response <- text_detection client image_content ;;
          if Py.truthy (Vision.message (Vision.error response)) then
            logger_error ("Vision API error: "
                          ++ Vision.message (Vision.error response)) ;;
            raise {| status_code := 500;
                     detail := "Failed to process image with Vision API" |}
          else
            let texts := Vision.text_annotations response in
            match texts with
            | [] => ret ("", 0%float)
            | first :: _ =>
                let extracted_text := Vision.description first in
                let confidence :=
                  if Py.truthy extracted_text then 0.95%float else 0%float in
                ret (extracted_text, confidence)
            end
      end
  end.

Definition root : ApiInfoModel :=
  {| service := "OCR Text Extraction API";
     api_status := "running";
     version := "1.0.0";
     endpoints := [("extract_text", "/extract-text (POST)");
                   ("health", "/health (GET)")] |}.

(** [now] is the value of [time.time()] at the call. *)
Definition health (now : float) : HealthResponseModel :=
  let vision_status :=
    match vision_client with Some _ => "healthy" | None => "unavailable" end in
  {| status := "healthy"; vision_api := vision_status; timestamp := now |}.

(** The guard clauses of [extract_text], up to the call of
    [extract_text_from_image]; they return the bytes read and their
    length. *)
Definition extract_text_guards (image : UploadFile) : M (Py.bytes * Z) :=
  validate_image image ;;
  let image_content := file image in
  let file_size := Py.len image_content in
  if MAX_FILE_SIZE <? file_size then
    raise {| status_code := 413;
             detail := "File too large. Maximum size is 10MB" |}
  else if file_size =? 0 then
    raise {| status_code := 400; detail := "Empty file uploaded" |}
  else ret (image_content, file_size).

(** [elapsed_ms] is the value of
    [int((time.time() - start_time) * 1000)] at line 211. *)
Definition extract_text (elapsed_ms : Z) (image : UploadFile)
  : M SuccessResponseModel :=
  guarded <- extract_text_guards image ;;
  let '(image_content, file_size) := guarded in
  result <- extract_text_from_image image_content ;;
  let '(extracted_text, confidence) := result in
  logger_info ("Successfully processed " ++ Py.format_opt (filename image)) ;;
  ret {| success := true;
         text := extracted_text;
         confidence := confidence;
         processing_time_ms := elapsed_ms;
         metadata := {| md_filename := filename image;
                        md_file_size_bytes := file_size;
                        md_content_type := content_type image |} |}.

End App.

(** ** Responses and exception handlers *)

(** The JSON bodies the application can send: a serialized
    [SuccessResponseModel], the [model_dump()] of an
    [ErrorResponseModel], and the object with the single key
    ["detail"] that FastAPI builds for an [HTTPException] no handler of
    the application has claimed. *)
Inductive Body :=
| SuccessBody (r : SuccessResponseModel)
| ErrorBody (e : ErrorResponseModel)
| DetailBody (d : string).

Record JSONResponse := {
  resp_status_code : Z;
  resp_content : Body
}.

Definition payload_too_large_handler (exc : HTTPException) : JSONResponse :=
  let error_response :=
    {| err_success := false;
       err_error := "Payload too large";
       err_detail := "File size exceeds 10MB limit";
       err_processing_time_ms := 0 |} in
  {| resp_status_code := 413; resp_content := ErrorBody error_response |}.

(** FastAPI's default handler of [HTTPException]. *)
Definition http_exception_handler (exc : HTTPException) : JSONResponse :=
  {| resp_status_code := status_code exc;
     resp_content := DetailBody (detail exc) |}.

(** Handler lookup: [@app.exception_handler(413)] claims every
    [HTTPException] of status 413, the default handler takes the rest. *)
Definition handle_exception (exc : HTTPException) : JSONResponse :=
  if status_code exc =? 413 then payload_too_large_handler exc
  else http_exception_handler exc.

(** [POST /extract-text] with an [image] part: the route handler, then
    the response of a returned model (status 200) or of a raised
    exception.  A request without the part never reaches the handler:
    the framework answers it with 422, which is outside this model. *)
Definition post_extract_text
  (vision_client : option Vision.ImageAnnotatorClient)
  (elapsed_ms : Z) (image : UploadFile) : World -> JSONResponse * World :=
  fun w =>
    match extract_text vision_client elapsed_ms image w with
    | (inr r, w') => ({| resp_status_code := 200;
                         resp_content := SuccessBody r |}, w')
    | (inl exc, w') => (handle_exception exc, w')
    end.

(** [lifespan] at start-up: [constructed] is the outcome of
    [vision.ImageAnnotatorClient()], a client or the text of the
    exception it raised. *)
Definition lifespan (constructed : string + Vision.ImageAnnotatorClient)
  : World -> option Vision.ImageAnnotatorClient * World :=
  fun w =>
    match constructed with
    | inr client =>
        (Some client,
         snd (logger_info "Vision API client initialized successfully" w))
    | inl e =>
        (None,
         snd (logger_error ("Failed to initialize Vision API client: " ++ e) w))
    end.

(** ** The validation checks, one by one

    The five checks of section 4.1, each with the exception it raises,
    stated on the upload alone.  [validation_checks] lists them in the
    order of the specification; the theorems below compare the code
    with this list. *)

Definition unsupported_content_type (f : UploadFile) : bool :=
  negb (Py.opt_in (content_type f) ALLOWED_CONTENT_TYPES).

Definition missing_filename (f : UploadFile) : bool :=
  negb (Py.truthy_opt (filename f)).

Definition extension_of (f : UploadFile) : string :=
  match filename f with
  | Some name => Py.lower (snd (Py.splitext name))
  | None => ""
  end.

Definition unsupported_extension (f : UploadFile) : bool :=
  negb (Py.str_in (extension_of f) ALLOWED_EXTENSIONS).

Definition oversized (f : UploadFile) : bool :=
  MAX_FILE_SIZE <? Py.len (file f).

Definition empty_payload (f : UploadFile) : bool :=
  Py.len (file f) =? 0.

Definition content_type_error (f : UploadFile) : HTTPException :=
  {| status_code := 400;
     detail := "Invalid file format. Only JPG/JPEG images are supported. Received: "
               ++ Py.format_opt (content_type f) |}.

Definition filename_error (f : UploadFile) : HTTPException :=
  {| status_code := 400; detail := "Filename is required" |}.

Definition extension_error (f : UploadFile) : HTTPException :=
  {| status_code := 400;
     detail := "Invalid file extension. Only .jpg and .jpeg are supported. Received: "
               ++ extension_of f |}.

Definition oversized_error (f : UploadFile) : HTTPException :=
  {| status_code := 413; detail := "File too large. Maximum size is 10MB" |}.

Definition empty_error (f : UploadFile) : HTTPException :=
  {| status_code := 400; detail := "Empty file uploaded" |}.

Definition validation_checks
  : list ((UploadFile -> bool) * (UploadFile -> HTTPException)) :=
  [ (unsupported_content_type, content_type_error);
    (missing_filename, filename_error);
    (unsupported_extension, extension_error);
    (oversized, oversized_error);
    (empty_payload, empty_error) ].

(** The first check of the list that fails on [f], with its error. *)
Definition first_failure (f : UploadFile) : option HTTPException :=
  match find (fun check => fst check f) validation_checks with
  | Some check => Some (snd check f)
  | None => None
  end.

(** The upload passes the three checks of [validate_image]. *)
Definition format_ok (f : UploadFile) : bool :=
  negb (unsupported_content_type f)
  && negb (missing_filename f)
  && negb (unsupported_extension f).

(** ** Names with a lowered extension *)

(** The file name with its extension in lower case. *)
Definition lower_extension (name : string) : string :=
  fst (Py.splitext name) ++ Py.lower (snd (Py.splitext name)).

Definition with_lower_extension (f : UploadFile) : UploadFile :=
  {| content_type := content_type f;
     filename := option_map lower_extension (filename f);
     file := file f |}.

(** ** The failure envelope *)

(** The body of the 413 handler. *)
Definition payload_too_large_envelope : ErrorResponseModel :=
  {| err_success := false;
     err_error := "Payload too large";
     err_detail := "File size exceeds 10MB limit";
     err_processing_time_ms := 0 |}.

(** ** Sample inputs, after [test_main.py] *)

Definition SAMPLE_JPEG : Py.bytes := [xff; xd8; xff; xe0; x00; x10; xff; xd9].

Definition test_jpg : UploadFile :=
  {| content_type := Some "image/jpeg";
     filename := Some "test.jpg";
     file := SAMPLE_JPEG |}.

Definition test_png : UploadFile :=
  {| content_type := Some "image/png";
     filename := Some "test.png";
     file := [x66; x61; x6b; x65; x70; x6e; x67] |}.

Definition no_filename : UploadFile :=
  {| content_type := Some "image/jpeg";
     filename := None;
     file := SAMPLE_JPEG |}.

Definition empty_jpg : UploadFile :=
  {| content_type := Some "image/jpeg";
     filename := Some "test.jpg";
     file := [] |}.

(** A payload of [n] bytes [xff] under the name ["test.jpg"]. *)
Definition sized_jpg (n : Z) : UploadFile :=
  {| content_type := Some "image/jpeg";
     filename := Some "test.jpg";
     file := repeat xff (Z.to_nat n) |}.

Definition answer (error_message : string) (texts : list string)
  : Vision.AnnotateImageResponse :=
  {| Vision.error := {| Vision.message := error_message |};
     Vision.text_annotations :=
       map (fun t => {| Vision.description := t |}) texts |}.

(** The mocked clients of the tests: one that reads "Hello World", one
    that finds nothing, one that reports an error; and one whose first
    annotation is empty. *)
Definition hello_client : Vision.ImageAnnotatorClient :=
  fun _ _ => answer "" ["Hello World"].

Definition no_text_client : Vision.ImageAnnotatorClient :=
  fun _ _ => answer "" [].

Definition failing_client : Vision.ImageAnnotatorClient :=
  fun _ _ => answer "Some API error" [].

Definition blank_client : Vision.ImageAnnotatorClient :=
  fun _ _ => answer "" [""; "stray"].

Definition fresh_world : World := {| provider_calls := []; log := [] |}.

(** A provider that reports an error on its first request and would read
    the image on any later one. *)
Definition flaky_client : Vision.ImageAnnotatorClient :=
  fun earlier _ =>
    match earlier with
    | [] => answer "Some API error" []
    | _ :: _ => answer "" ["Hello World"]
    end.

(** An upload whose extension is in upper case. *)
Definition photo_upper_jpg : UploadFile :=
  {| content_type := Some "image/jpeg";
     filename := Some "photo.JPG";
     file := SAMPLE_JPEG |}.

(** More uploads and providers: a name whose only dot is in a
    directory part, a content type in upper case, a payload that is no
    JPEG under JPEG labels, and a provider that fails with another
    message. *)
Definition dotted_directory : UploadFile :=
  {| content_type := Some "image/jpeg";
     filename := Some "scans.jpg/photo";
     file := SAMPLE_JPEG |}.

Definition upper_content_type : UploadFile :=
  {| content_type := Some "IMAGE/JPEG";
     filename := Some "test.jpg";
     file := SAMPLE_JPEG |}.

Definition mislabelled_png : UploadFile :=
  {| content_type := Some "image/jpeg";
     filename := Some "test.jpg";
     file := [x89; x50; x4e; x47; x0d; x0a; x1a; x0a] |}.


(** ** The handler with a provider whose call can raise

    [main.py] calls [vision_client.text_detection] without a
    [try]: an exception of the call leaves the handler as it is.  The
    definitions above take a provider whose call returns; the module
    below embeds the same two functions for a provider whose call
    returns or raises, and [Raising.answering] takes the first kind of
    provider to the second.  An exception that is no [HTTPException]
    is answered by the framework's server-error middleware with the
    plain text ["Internal Server Error"] under status 500; [main.py]
    writes no log record for it. *)

Module Raising.

(** [text_detection] of a client: the text of the exception raised, or
    the answer. *)
Definition ImageAnnotatorClient :=
  list Py.bytes -> Py.bytes -> string + Vision.AnnotateImageResponse.

Definition answering (client : Vision.ImageAnnotatorClient)
  : ImageAnnotatorClient :=
  fun earlier image => inr (client earlier image).

(** What a computation raises: an [HTTPException], or an exception that
    no handler of the application catches. *)
Inductive Raised :=
| Http (e : HTTPException)
| Uncaught (exception : string).

Definition Comp (A : Type) : Type := World -> (Raised + A) * World.

Definition ret {A} (a : A) : Comp A := fun w => (inr a, w).

Definition bind {A B} (c : Comp A) (k : A -> Comp B) : Comp B :=
  fun w =>
    match c w with
    | (inl e, w') => (inl e, w')
    | (inr a, w') => k a w'
    end.

Definition raise {A} (e : HTTPException) : Comp A :=
  fun w => (inl (Http e), w).

(** A computation that raises [HTTPException] only. *)
Definition lift {A} (c : M A) : Comp A :=
  fun w =>
    match c w with
    | (inl e, w') => (inl (Http e), w')
    | (inr a, w') => (inr a, w')
    end.

Declare Scope raising_scope.
Delimit Scope raising_scope with raising.
Notation "x <- c ;; k" := (bind c (fun x => k))
  (at level 61, c at next level, right associativity) : raising_scope.
Notation "c ;; k" := (bind c (fun _ => k))
  (at level 61, right associativity) : raising_scope.
Local Open Scope raising_scope.

(** The call is on record whether it returns or raises. *)
Definition text_detection (client : ImageAnnotatorClient)
  (image : Py.bytes) : Comp Vision.AnnotateImageResponse :=
  fun w =>
    let w' := {| provider_calls := (provider_calls w ++ [image])%list;
                 log := log w |} in
    match client (provider_calls w) image with
    | inl exception => (inl (Uncaught exception), w')
    | inr response => (inr response, w')
    end.

Section App.

Variable vision_client : option ImageAnnotatorClient.

Definition extract_text_from_image (image_content : Py.bytes)
  : Comp (string * float) :=
  match vision_client with
  | None =>
      lift (logger_error "Vision API client not initialized") ;;
      raise {| status_code := 503;
               detail := "Vision API service unavailable" |}
  | Some client =>
      match image_content with
      | [] => raise {| status_code := 400; detail := "Empty image content" |}
      | _ :: _ =>
          response <- text_detection client image_content ;;
          if Py.truthy (Vision.message (Vision.error response)) then
            lift (logger_error ("Vision API error: "
                                ++ Vision.message (Vision.error response))) ;;
            raise {| status_code := 500;
                     detail := "Failed to process image with Vision API" |}
          else
            let texts := Vision.text_annotations response in
            match texts with
            | [] => ret ("", 0%float)
            | first :: _ =>
                let extracted_text := Vision.description first in
                let confidence :=
                  if Py.truthy extracted_text then 0.95%float else 0%float in
                ret (extracted_text, confidence)
            end
      end
  end.

Definition extract_text (elapsed_ms : Z) (image : UploadFile)
  : Comp SuccessResponseModel :=
  guarded <- lift (extract_text_guards image) ;;
  let '(image_content, file_size) := guarded in
  result <- extract_text_from_image image_content ;;
  let '(extracted_text, confidence) := result in
  lift (logger_info ("Successfully processed "
                     ++ Py.format_opt (filename image))) ;;
  ret {| success := true;
         text := extracted_text;
         confidence := confidence;
         processing_time_ms := elapsed_ms;
         metadata := {| md_filename := filename image;
                        md_file_size_bytes := file_size;
                        md_content_type := content_type image |} |}.

End App.

(** A response is a [JSONResponse] of the application or of FastAPI, or
    the plain text of the server-error middleware. *)
Inductive Response :=
| Json (r : JSONResponse)
| PlainText (status : Z) (body : string).

Definition status_of (r : Response) : Z :=
  match r with
  | Json j => resp_status_code j
  | PlainText s _ => s
  end.

Definition server_error : Response :=
  PlainText 500 "Internal Server Error".

(** The route handler on an uploaded file, then the response of the
    model returned, of the [HTTPException] raised, or of any other
    exception. *)
Definition post_extract_text
  (vision_client : option ImageAnnotatorClient)
  (elapsed_ms : Z) (image : UploadFile) : World -> Response * World :=
  fun w =>
    match extract_text vision_client elapsed_ms image w with
    | (inr r, w') => (Json {| resp_status_code := 200;
                              resp_content := SuccessBody r |}, w')
    | (inl (Http exc), w') => (Json (handle_exception exc), w')
    | (inl (Uncaught _), w') => (server_error, w')
    end.

End Raising.

(** A provider whose call raises, and one whose first call raises and
    whose later calls read the image. *)
Definition deadline_client : Raising.ImageAnnotatorClient :=
  fun _ _ => inl "504 Deadline Exceeded".

Definition warming_client : Raising.ImageAnnotatorClient :=
  fun earlier _ =>
    match earlier with
    | [] => inl "503 failed to connect to all addresses"
    | _ :: _ => inr (answer "" ["Hello World"])
    end.

(** ** Basic facts *)

Example splitext_jpg : Py.splitext "test.jpg" = ("test", ".jpg").
Proof. reflexivity. Qed.

Example splitext_dotfile : Py.splitext ".jpg" = (".jpg", "").
Proof. reflexivity. Qed.

Example splitext_dir : Py.splitext "a.b/c" = ("a.b/c", "").
Proof. reflexivity. Qed.

Example splitext_dots : Py.splitext "dir/..x.JPEG" = ("dir/..x", ".JPEG").
Proof. reflexivity. Qed.

Example splitext_only_dots : Py.splitext "..." = ("...", "").
Proof. reflexivity. Qed.

Example splitext_two : Py.splitext "a.tar.gz" = ("a.tar", ".gz").
Proof. reflexivity. Qed.

Example lower_mixed : Py.lower ".JpEg" = ".jpeg".
Proof. reflexivity. Qed.

(** ** The cases of [test_main.py], evaluated on the model *)

Example test_extract_text_valid_jpg :
  fst (post_extract_text (Some hello_client) 7 test_jpg fresh_world)
  = {| resp_status_code := 200;
       resp_content :=
         SuccessBody
           {| success := true;
              text := "Hello World";
              confidence := 0.95%float;
              processing_time_ms := 7;
              metadata := {| md_filename := Some "test.jpg";
                             md_file_size_bytes := 8;
                             md_content_type := Some "image/jpeg" |} |} |}.
Proof. reflexivity. Qed.

Example test_extract_text_invalid_content_type :
  fst (post_extract_text (Some hello_client) 7 test_png fresh_world)
  = {| resp_status_code := 400;
       resp_content :=
         DetailBody "Invalid file format. Only JPG/JPEG images are supported. Received: image/png" |}.
Proof. reflexivity. Qed.

Example test_extract_text_invalid_extension :
  fst (post_extract_text (Some hello_client) 7
         {| content_type := Some "image/jpeg";
            filename := Some "test.png";
            file := SAMPLE_JPEG |} fresh_world)
  = {| resp_status_code := 400;
       resp_content :=
         DetailBody "Invalid file extension. Only .jpg and .jpeg are supported. Received: .png" |}.
Proof. reflexivity. Qed.

Example test_extract_text_empty_file :
  fst (post_extract_text (Some hello_client) 7 empty_jpg fresh_world)
  = {| resp_status_code := 400;
       resp_content := DetailBody "Empty file uploaded" |}.
Proof. reflexivity. Qed.

Example test_extract_text_no_text_found :
  fst (post_extract_text (Some no_text_client) 7 test_jpg fresh_world)
  = {| resp_status_code := 200;
       resp_content :=
         SuccessBody
           {| success := true;
              text := "";
              confidence := 0%float;
              processing_time_ms := 7;
              metadata := {| md_filename := Some "test.jpg";
                             md_file_size_bytes := 8;
                             md_content_type := Some "image/jpeg" |} |} |}.
Proof. reflexivity. Qed.

Example test_extract_text_vision_api_error :
  post_extract_text (Some failing_client) 7 test_jpg fresh_world
  = ({| resp_status_code := 500;
        resp_content := DetailBody "Failed to process image with Vision API" |},
     {| provider_calls := [SAMPLE_JPEG];
        log := [(ERROR, "Vision API error: Some API error")] |}).
Proof. reflexivity. Qed.

Example test_extract_text_vision_client_none :
  post_extract_text None 7 test_jpg fresh_world
  = ({| resp_status_code := 503;
        resp_content := DetailBody "Vision API service unavailable" |},
     {| provider_calls := [];
        log := [(ERROR, "Vision API client not initialized")] |}).
Proof. reflexivity. Qed.

(** Case analysis on the first failing check of [f]. *)
Ltac failing_check f H :=
  unfold first_failure, validation_checks in H; cbn [find fst snd] in H;
  unfold format_ok;
  destruct (unsupported_content_type f) eqn:?;
  [|destruct (missing_filename f) eqn:?;
    [|destruct (unsupported_extension f) eqn:?;
      [|destruct (oversized f) eqn:?;
        [|destruct (empty_payload f) eqn:?]]]];
  try discriminate H; try (injection H as <-).

Lemma len_nonneg (b : Py.bytes) : 0 <= Py.len b.
Proof. unfold Py.len. lia. Qed.

Lemma len_zero_iff (b : Py.bytes) : Py.len b = 0 <-> b = [].
Proof.
  unfold Py.len. destruct b as [|x b]; cbn [List.length]; split;
    intros H; try reflexivity; try discriminate; lia.
Qed.

(** [validate_image] reads the upload only: it leaves the world as it
    is, and its outcome is that of the first three checks. *)
Lemma validate_image_spec (f : UploadFile) (w : World) :
  validate_image f w =
  ((if unsupported_content_type f then inl (content_type_error f)
    else if missing_filename f then inl (filename_error f)
    else if unsupported_extension f then inl (extension_error f)
    else inr tt), w).
Proof.
  unfold validate_image, unsupported_content_type, missing_filename,
    unsupported_extension, content_type_error, filename_error,
    extension_error, extension_of.
  destruct (negb (Py.opt_in (content_type f) ALLOWED_CONTENT_TYPES)).
  - reflexivity.
  - destruct (filename f) as [name|]; cbn [Py.truthy_opt negb]; [|reflexivity].
    destruct (negb (Py.truthy name)); [reflexivity|].
    destruct (negb (Py.str_in _ ALLOWED_EXTENSIONS)); [|reflexivity].
    reflexivity.
Qed.

Lemma validate_image_ok (f : UploadFile) (w : World) :
  format_ok f = true -> validate_image f w = (inr tt, w).
Proof.
  unfold format_ok. intros H. rewrite validate_image_spec.
  destruct (unsupported_content_type f), (missing_filename f),
    (unsupported_extension f); try discriminate; reflexivity.
Qed.

Lemma validate_image_accepts_iff (f : UploadFile) (w : World) :
  fst (validate_image f w) = inr tt <-> format_ok f = true.
Proof.
  rewrite validate_image_spec. unfold format_ok. cbn [fst].
  destruct (unsupported_content_type f), (missing_filename f),
    (unsupported_extension f); cbn [negb andb];
    split; intros H; try reflexivity; discriminate H.
Qed.

(** The guard clauses of the handler follow [validation_checks] in
    order and leave the world as it is. *)
Lemma extract_text_guards_spec (f : UploadFile) (w : World) :
  extract_text_guards f w =
  (match first_failure f with
   | Some e => inl e
   | None => inr (file f, Py.len (file f))
   end, w).
Proof.
  unfold extract_text_guards, bind, first_failure, validation_checks.
  rewrite validate_image_spec. cbn [find fst snd].
  destruct (unsupported_content_type f); [reflexivity|].
  destruct (missing_filename f); [reflexivity|].
  destruct (unsupported_extension f); [reflexivity|].
  unfold oversized, empty_payload.
  destruct (MAX_FILE_SIZE <? Py.len (file f)); [reflexivity|].
  destruct (Py.len (file f) =? 0); reflexivity.
Qed.

Lemma first_failure_none (f : UploadFile) :
  first_failure f = None <->
  format_ok f = true /\ 0 < Py.len (file f) <= MAX_FILE_SIZE.
Proof.
  unfold first_failure, validation_checks, format_ok, oversized, empty_payload.
  cbn [find fst snd].
  pose proof (len_nonneg (file f)) as Hn.
  destruct (unsupported_content_type f), (missing_filename f),
    (unsupported_extension f); cbn [negb andb];
    try (split; [discriminate | intros [? _]; discriminate]).
  destruct (Z.ltb_spec MAX_FILE_SIZE (Py.len (file f)));
    [split; [discriminate | intros [_ ?]; lia]|].
  destruct (Z.eqb_spec (Py.len (file f)) 0);
    [split; [discriminate | intros [_ ?]; lia]|].
  split; [intros _; split; [reflexivity | lia] | reflexivity].
Qed.

Lemma extract_text_guards_pass (f : UploadFile) (w : World) :
  format_ok f = true -> 0 < Py.len (file f) <= MAX_FILE_SIZE ->
  extract_text_guards f w = (inr (file f, Py.len (file f)), w).
Proof.
  intros Hf Hs. rewrite extract_text_guards_spec.
  now rewrite (proj2 (first_failure_none f) (conj Hf Hs)).
Qed.

(** What "a JPEG content type and a .jpg or .jpeg file name" comes to
    for [validate_image]: an allowed file name is never empty. *)
Lemma format_ok_iff (f : UploadFile) :
  format_ok f = true <->
  Py.opt_in (content_type f) ALLOWED_CONTENT_TYPES = true
  /\ exists name,
       filename f = Some name
       /\ Py.str_in (Py.lower (snd (Py.splitext name))) ALLOWED_EXTENSIONS = true.
Proof.
  unfold format_ok, unsupported_content_type, missing_filename,
    unsupported_extension, extension_of.
  destruct (Py.opt_in (content_type f) ALLOWED_CONTENT_TYPES); cbn [negb andb];
    [|split; [discriminate | intros [? _]; discriminate]].
  destruct (filename f) as [name|]; cbn [Py.truthy_opt].
  - destruct name as [|c name].
    + cbn. split; [discriminate|]. intros [_ (n & Hn & He)].
      injection Hn as <-. discriminate He.
    + cbn [Py.truthy negb andb].
      destruct (Py.str_in _ ALLOWED_EXTENSIONS) eqn:He; cbn [negb].
      * split; [intros _; split; [reflexivity|] | reflexivity].
        eexists; split; [reflexivity | exact He].
      * split; [discriminate|]. intros [_ (n & Hn & Hn')].
        injection Hn as <-. congruence.
  - cbn. split; [discriminate|]. intros [_ (n & Hn & _)]. discriminate Hn.
Qed.

(** The four ways [extract_text_from_image] can go. *)
Lemma extract_text_from_image_unavailable (image : Py.bytes) (w : World) :
  extract_text_from_image None image w =
  (inl {| status_code := 503; detail := "Vision API service unavailable" |},
   {| provider_calls := provider_calls w;
      log := (log w ++ [(ERROR, "Vision API client not initialized")])%list |}).
Proof. reflexivity. Qed.

Lemma extract_text_from_image_empty
  (client : Vision.ImageAnnotatorClient) (w : World) :
  extract_text_from_image (Some client) [] w =
  (inl {| status_code := 400; detail := "Empty image content" |}, w).
Proof. reflexivity. Qed.

Lemma extract_text_from_image_provider_error
  (client : Vision.ImageAnnotatorClient) (image : Py.bytes) (w : World) :
  image <> [] ->
  Py.truthy (Vision.message (Vision.error (client (provider_calls w) image)))
  = true ->
  extract_text_from_image (Some client) image w =
  (inl {| status_code := 500;
          detail := "Failed to process image with Vision API" |},
   {| provider_calls := (provider_calls w ++ [image])%list;
      log := (log w ++
              [(ERROR, ("Vision API error: "
                        ++ Vision.message
                             (Vision.error (client (provider_calls w) image)))%string)])%list
   |}).
Proof.
  intros Hne Herr. destruct image as [|b image]; [congruence|].
  unfold extract_text_from_image, bind, text_detection.
  cbn [provider_calls log]. now rewrite Herr.
Qed.

Lemma extract_text_from_image_answer
  (client : Vision.ImageAnnotatorClient) (image : Py.bytes) (w : World) :
  image <> [] ->
  Py.truthy (Vision.message (Vision.error (client (provider_calls w) image)))
  = false ->
  extract_text_from_image (Some client) image w =
  (inr match Vision.text_annotations (client (provider_calls w) image) with
       | [] => ("", 0%float)
       | first :: _ =>
           (Vision.description first,
            if Py.truthy (Vision.description first)
            then 0.95%float else 0%float)
       end,
   {| provider_calls := (provider_calls w ++ [image])%list; log := log w |}).
Proof.
  intros Hne Herr. destruct image as [|b image]; [congruence|].
  unfold extract_text_from_image, bind, text_detection.
  cbn [provider_calls log]. rewrite Herr.
  now destruct (Vision.text_annotations _).
Qed.

(** Once the guards have passed, the handler is the extraction followed
    by the success envelope. *)
Lemma extract_text_past_guards
  (vc : option Vision.ImageAnnotatorClient) (elapsed : Z)
  (f : UploadFile) (w : World) :
  format_ok f = true -> 0 < Py.len (file f) <= MAX_FILE_SIZE ->
  extract_text vc elapsed f w =
  match extract_text_from_image vc (file f) w with
  | (inl e, w') => (inl e, w')
  | (inr (extracted_text, conf), w') =>
      (inr {| success := true;
              text := extracted_text;
              confidence := conf;
              processing_time_ms := elapsed;
              metadata := {| md_filename := filename f;
                             md_file_size_bytes := Py.len (file f);
                             md_content_type := content_type f |} |},
       {| provider_calls := provider_calls w';
          log := (log w' ++ [(INFO, ("Successfully processed "
                                     ++ Py.format_opt (filename f))%string)])%list |})
  end.
Proof.
  intros Hf Hs. unfold extract_text, bind.
  rewrite (extract_text_guards_pass f w Hf Hs).
  destruct (extract_text_from_image vc (file f) w) as [[e|[t c]] w'];
    reflexivity.
Qed.

Lemma nonempty_of_len (b : Py.bytes) : 0 < Py.len b -> b <> [].
Proof. intros H ->. cbn in H. lia. Qed.

(** The response to an upload that passes every guard: 503 without a
    client, 500 on a provider error, 200 otherwise; the provider is
    asked at most once. *)
Lemma post_extract_text_past_guards
  (vc : option Vision.ImageAnnotatorClient) (elapsed : Z)
  (f : UploadFile) (w : World) :
  format_ok f = true -> 0 < Py.len (file f) <= MAX_FILE_SIZE ->
  post_extract_text vc elapsed f w =
  match vc with
  | None =>
      ({| resp_status_code := 503;
          resp_content := DetailBody "Vision API service unavailable" |},
       {| provider_calls := provider_calls w;
          log := (log w ++ [(ERROR, "Vision API client not initialized")])%list |})
  | Some client =>
      let response := client (provider_calls w) (file f) in
      if Py.truthy (Vision.message (Vision.error response)) then
        ({| resp_status_code := 500;
            resp_content := DetailBody "Failed to process image with Vision API" |},
         {| provider_calls := (provider_calls w ++ [file f])%list;
            log := (log w ++
                    [(ERROR, ("Vision API error: "
                              ++ Vision.message (Vision.error response))%string)])%list |})
      else
        let result :=
          match Vision.text_annotations response with
          | [] => ("", 0%float)
          | first :: _ =>
              (Vision.description first,
               if Py.truthy (Vision.description first)
               then 0.95%float else 0%float)
          end in
        ({| resp_status_code := 200;
            resp_content :=
              SuccessBody
                {| success := true;
                   text := fst result;
                   confidence := snd result;
                   processing_time_ms := elapsed;
                   metadata := {| md_filename := filename f;
                                  md_file_size_bytes := Py.len (file f);
                                  md_content_type := content_type f |} |} |},
         {| provider_calls := (provider_calls w ++ [file f])%list;
            log := (log w ++ [(INFO, ("Successfully processed "
                                      ++ Py.format_opt (filename f))%string)])%list |})
  end.
Proof.
  intros Hf Hs. unfold post_extract_text.
  rewrite (extract_text_past_guards _ _ _ _ Hf Hs).
  pose proof (nonempty_of_len _ (proj1 Hs)) as Hne.
  destruct vc as [client|].
  - cbv zeta.
    destruct (Py.truthy (Vision.message
                (Vision.error (client (provider_calls w) (file f))))) eqn:Herr.
    + now rewrite (extract_text_from_image_provider_error _ _ _ Hne Herr).
    + rewrite (extract_text_from_image_answer _ _ _ Hne Herr).
      now destruct (Vision.text_annotations _).
  - now rewrite extract_text_from_image_unavailable.
Qed.

(** The response to an upload that fails a guard is the handled error of
    the first failing check. *)
Lemma post_extract_text_rejected
  (vc : option Vision.ImageAnnotatorClient) (elapsed : Z)
  (f : UploadFile) (w : World) (e : HTTPException) :
  first_failure f = Some e ->
  extract_text vc elapsed f w = (inl e, w)
  /\ post_extract_text vc elapsed f w = (handle_exception e, w).
Proof.
  intros He.
  assert (H : extract_text vc elapsed f w = (inl e, w)).
  { unfold extract_text, bind. rewrite extract_text_guards_spec, He.
    reflexivity. }
  split; [exact H|]. unfold post_extract_text. now rewrite H.
Qed.

Lemma placeholder_not_zero : 0.95%float <> 0%float.
Proof.
  intros H. apply (f_equal (fun x => PrimFloat.eqb x 0%float)) in H.
  vm_compute in H. discriminate H.
Qed.

(** ** Facts on [lower] and [splitext] *)

(** [lower_char] moves no character onto or off a mark such as the dot
    or the slash, and applying it twice is applying it once. *)
Lemma lower_char_idem (x : ascii) :
  Py.lower_char (Py.lower_char x) = Py.lower_char x.
Proof. destruct x as [[] [] [] [] [] [] [] []]; reflexivity. Qed.

Lemma lower_char_dot (x : ascii) :
  Ascii.eqb (Py.lower_char x) "." = Ascii.eqb x ".".
Proof. destruct x as [[] [] [] [] [] [] [] []]; reflexivity. Qed.

Lemma lower_char_slash (x : ascii) :
  Ascii.eqb (Py.lower_char x) "/" = Ascii.eqb x "/".
Proof. destruct x as [[] [] [] [] [] [] [] []]; reflexivity. Qed.

Lemma lower_idem (s : string) : Py.lower (Py.lower s) = Py.lower s.
Proof.
  induction s as [|c s IH]; cbn; [reflexivity|].
  now rewrite lower_char_idem, IH.
Qed.

Lemma lower_length (s : string) : String.length (Py.lower s) = String.length s.
Proof. induction s as [|c s IH]; cbn; [reflexivity | now rewrite IH]. Qed.

Lemma string_app_empty_r (s : string) : s ++ "" = s.
Proof. induction s as [|c s IH]; cbn; [reflexivity | now rewrite IH]. Qed.

Lemma string_app_length (a b : string) :
  String.length (a ++ b) = (String.length a + String.length b)%nat.
Proof. induction a as [|c a IH]; cbn; [reflexivity | now rewrite IH]. Qed.

Lemma take_drop (n : nat) (s : string) : Py.take n s ++ Py.drop n s = s.
Proof.
  revert s. induction n as [|n IH]; intros [|c s]; cbn; try reflexivity.
  now rewrite IH.
Qed.

Lemma take_length (n : nat) (s : string) :
  (n <= String.length s)%nat -> String.length (Py.take n s) = n.
Proof.
  revert s. induction n as [|n IH]; intros [|c s] H; cbn in *;
    try reflexivity; try lia.
  rewrite IH; [reflexivity | lia].
Qed.

Lemma take_app_exact (n : nat) (a b : string) :
  String.length a = n -> Py.take n (a ++ b) = a.
Proof.
  intros <-. induction a as [|c a IH]; cbn; [now destruct b | now rewrite IH].
Qed.

Lemma drop_app_exact (n : nat) (a b : string) :
  String.length a = n -> Py.drop n (a ++ b) = b.
Proof.
  intros <-. induction a as [|c a IH]; cbn; [now destruct b | exact IH].
Qed.

(** A character before the end of [a] is the same in [a ++ b] and in
    [a ++ b']. *)
Lemma char_at_app_left (a b b' : string) (k : Z) :
  0 <= k < Z.of_nat (String.length a) ->
  Py.char_at k (a ++ b) = Py.char_at k (a ++ b').
Proof.
  unfold Py.char_at. intros Hk.
  assert (Hn : (Z.to_nat k < String.length a)%nat) by lia.
  clear Hk. revert Hn. generalize (Z.to_nat k) as n.
  induction a as [|c a IH]; intros n Hn; cbn in Hn; [lia|].
  destruct n as [|n]; cbn; [reflexivity|].
  apply IH. lia.
Qed.

(** [rfind_from] answers -1 or an index of the string. *)
Lemma rfind_from_range (c : ascii) (s : string) (i : Z) :
  0 <= i ->
  Py.rfind_from c s i = -1
  \/ i <= Py.rfind_from c s i < i + Z.of_nat (String.length s).
Proof.
  revert i. induction s as [|a s IH]; intros i Hi; cbn [Py.rfind_from];
    [now left|].
  cbv zeta. cbn [String.length].
  destruct (IH (i + 1) ltac:(lia)) as [-> | Hr].
  - cbn. destruct (Ascii.eqb a c); [right; lia | now left].
  - destruct (Z.leb_spec 0 (Py.rfind_from c s (i + 1))); [right; lia | lia].
Qed.

Section Mark.

(** A mark is a character that [lower_char] neither produces nor
    removes; the dot and the slash are marks. *)
Variable c : ascii.
Hypothesis lower_keeps_mark :
  forall x, Ascii.eqb (Py.lower_char x) c = Ascii.eqb x c.

(** [rfind_from] for a mark sees no difference between a string and the
    string with a lowered tail. *)
Lemma rfind_from_lower_tail (a b : string) (i : Z) :
  Py.rfind_from c (a ++ Py.lower b) i = Py.rfind_from c (a ++ b) i.
Proof.
  revert i. induction a as [|x a IHa]; intros i.
  - cbn [append]. revert i. induction b as [|y b IHb]; intros i;
      cbn [Py.lower Py.rfind_from]; [reflexivity|].
    now rewrite IHb, lower_keeps_mark.
  - cbn [append Py.rfind_from]. now rewrite IHa.
Qed.

End Mark.

(** The dot-skipping loop reads the characters from [i] to [d] only. *)
Lemma has_stem_ext (fuel : nat) (p q : string) (i d : Z) :
  (forall k, i <= k < d -> Py.char_at k p = Py.char_at k q) ->
  Py.has_stem fuel p i d = Py.has_stem fuel q i d.
Proof.
  revert i. induction fuel as [|fuel IH]; intros i H; cbn [Py.has_stem];
    [reflexivity|].
  destruct (Z.ltb_spec i d); [|reflexivity].
  rewrite (H i ltac:(lia)).
  destruct (negb _); [reflexivity|].
  apply IH. intros k Hk. apply H. lia.
Qed.

(** The fuel of [has_stem] in [splitext] is enough: the loop runs from
    [filenameIndex] to [dotIndex] at most, and more fuel changes
    nothing. *)
Lemma has_stem_enough_fuel (fuel fuel' : nat) (p : string) (i d : Z) :
  d - i <= Z.of_nat fuel -> d - i <= Z.of_nat fuel' ->
  Py.has_stem fuel p i d = Py.has_stem fuel' p i d.
Proof.
  revert fuel' i. induction fuel as [|fuel IH]; intros [|fuel'] i H H';
    cbn [Py.has_stem]; try reflexivity.
  - destruct (Z.ltb_spec i d); [lia | reflexivity].
  - destruct (Z.ltb_spec i d); [lia | reflexivity].
  - destruct (Z.ltb_spec i d); [|reflexivity].
    destruct (negb _); [reflexivity|]. apply IH; lia.
Qed.

Lemma splitext_fuel (p : string) (extra : nat) :
  Py.has_stem (String.length p + extra) p
    (Py.rfind "/" p + 1) (Py.rfind "." p)
  = Py.has_stem (String.length p) p (Py.rfind "/" p + 1) (Py.rfind "." p).
Proof.
  unfold Py.rfind.
  destruct (rfind_from_range "/" p 0 ltac:(lia)) as [Hs | Hs];
    destruct (rfind_from_range "." p 0 ltac:(lia)) as [Hd | Hd];
    apply has_stem_enough_fuel; lia.
Qed.

(** Lowering the extension of a name changes neither where the name is
    split nor its root. *)
Lemma splitext_lower_extension (name : string) :
  Py.splitext (lower_extension name)
  = (fst (Py.splitext name), Py.lower (snd (Py.splitext name))).
Proof.
  unfold lower_extension, Py.splitext. cbv zeta.
  destruct ((Py.rfind "/" name <? Py.rfind "." name)
            && Py.has_stem (String.length name) name
                 (Py.rfind "/" name + 1) (Py.rfind "." name)) eqn:Hcond;
    cbn [fst snd].
  - apply andb_true_iff in Hcond. destruct Hcond as [Hlt Hstem].
    apply Z.ltb_lt in Hlt.
    set (d := Z.to_nat (Py.rfind "." name)) in *.
    destruct (rfind_from_range "/" name 0 ltac:(lia)) as [Hs | Hs];
      destruct (rfind_from_range "." name 0 ltac:(lia)) as [Hd | Hd];
      fold (Py.rfind "/" name) in Hs; fold (Py.rfind "." name) in Hd;
      try lia.
    all: assert (Hdl : String.length (Py.take d name) = d)
        by (apply take_length; subst d; lia).
    all: assert (Hsep : Py.rfind "/" (Py.take d name ++ Py.lower (Py.drop d name))
                        = Py.rfind "/" name)
        by (unfold Py.rfind;
            rewrite (rfind_from_lower_tail "/" lower_char_slash);
            now rewrite take_drop).
    all: assert (Hdot : Py.rfind "." (Py.take d name ++ Py.lower (Py.drop d name))
                        = Py.rfind "." name)
        by (unfold Py.rfind;
            rewrite (rfind_from_lower_tail "." lower_char_dot);
            now rewrite take_drop).
    all: rewrite Hsep, Hdot, string_app_length, lower_length,
           <- string_app_length, take_drop.
    all: rewrite (has_stem_ext _ _ name);
      [rewrite (proj2 (Z.ltb_lt _ _) Hlt), Hstem; cbn [andb]; fold d;
       now rewrite (take_app_exact d _ _ Hdl), (drop_app_exact d _ _ Hdl)|].
    all: intros k Hk;
      transitivity (Py.char_at k (Py.take d name ++ Py.drop d name));
      [apply char_at_app_left; rewrite Hdl; subst d; lia
      |now rewrite take_drop].
  - rewrite string_app_empty_r. now rewrite Hcond.
Qed.

Lemma lower_extension_length (name : string) :
  String.length (lower_extension name) = String.length name.
Proof.
  unfold lower_extension, Py.splitext. cbv zeta.
  destruct (_ && _); cbn [fst snd].
  - now rewrite string_app_length, lower_length, <- string_app_length, take_drop.
  - now rewrite string_app_empty_r.
Qed.

(** Whether the character at an index is the dot does not depend on the
    case of a tail of the string. *)
Lemma char_at_dot_lower_tail (a b : string) (k : Z) :
  String.eqb (Py.char_at k (a ++ Py.lower b)) "."
  = String.eqb (Py.char_at k (a ++ b)) ".".
Proof.
  unfold Py.char_at. generalize (Z.to_nat k) as n.
  induction a as [|x a IHa]; intros n.
  - cbn [append]. revert n.
    induction b as [|y b IHb]; intros n; [reflexivity|].
    destruct n as [|n]; cbn [Py.lower Py.drop]; [|apply IHb].
    cbn [Py.take]. destruct b; cbn [Py.lower Py.take String.eqb];
      now rewrite lower_char_dot.
  - destruct n as [|n]; cbn [append Py.drop]; [|apply IHa].
    cbn [Py.take]. now destruct (a ++ Py.lower b), (a ++ b).
Qed.

Lemma has_stem_lower_tail (fuel : nat) (a b : string) (i d : Z) :
  Py.has_stem fuel (a ++ Py.lower b) i d = Py.has_stem fuel (a ++ b) i d.
Proof.
  revert i. induction fuel as [|fuel IH]; intros i; cbn [Py.has_stem];
    [reflexivity|].
  now rewrite char_at_dot_lower_tail, IH.
Qed.

Lemma lower_empty (s : string) : Py.lower s = "" -> s = "".
Proof. destruct s; [reflexivity | discriminate]. Qed.

(** A name splits at the same place whatever the case of its
    extension. *)
Lemma splitext_any_case (root ext : string) :
  Py.splitext (root ++ Py.lower ext) = (root, Py.lower ext) ->
  Py.splitext (root ++ ext) = (root, ext).
Proof.
  unfold Py.splitext, Py.rfind. cbv zeta.
  rewrite !string_app_length, lower_length, has_stem_lower_tail.
  rewrite (rfind_from_lower_tail "/" lower_char_slash).
  rewrite (rfind_from_lower_tail "." lower_char_dot).
  set (sep := Py.rfind_from "/" (root ++ ext) 0).
  set (dot := Py.rfind_from "." (root ++ ext) 0).
  destruct ((sep <? dot) && _) eqn:Hcond.
  - apply andb_true_iff in Hcond. destruct Hcond as [Hlt _].
    apply Z.ltb_lt in Hlt. intros H. injection H as Htake _.
    assert (Hlen : String.length root = Z.to_nat dot).
    { rewrite <- Htake at 1. apply take_length.
      rewrite string_app_length, lower_length, <- string_app_length.
      destruct (rfind_from_range "/" (root ++ ext) 0 ltac:(lia)) as [Hs | Hs];
        destruct (rfind_from_range "." (root ++ ext) 0 ltac:(lia)) as [Hd | Hd];
        fold sep in Hs; fold dot in Hd; lia. }
    now rewrite (take_app_exact _ _ _ Hlen), (drop_app_exact _ _ _ Hlen).
  - intros H. injection H as _ Hext. symmetry in Hext.
    apply lower_empty in Hext. subst ext. now rewrite string_app_empty_r.
Qed.

(** ** Properties *)

(** *** The success path *)

(** C1: an upload with a JPEG content type, a file name whose extension
    is .jpg or .jpeg, and between 1 byte and 10MB of content, sent while
    the Vision client is initialized and answers without an error, gets
    HTTP 200 with [success = true] and a metadata object holding the
    declared file name, the byte length and the declared content type. *)
Theorem C1_valid_jpeg_succeeds
  (client : Vision.ImageAnnotatorClient) (elapsed : Z)
  (f : UploadFile) (w : World) (name : string) :
  Py.opt_in (content_type f) ALLOWED_CONTENT_TYPES = true ->
  filename f = Some name ->
  Py.str_in (Py.lower (snd (Py.splitext name))) ALLOWED_EXTENSIONS = true ->
  0 < Py.len (file f) <= MAX_FILE_SIZE ->
  Py.truthy
    (Vision.message (Vision.error (client (provider_calls w) (file f))))
  = false ->
  exists r : SuccessResponseModel,
    fst (post_extract_text (Some client) elapsed f w)
    = {| resp_status_code := 200; resp_content := SuccessBody r |}
    /\ success r = true
    /\ metadata r = {| md_filename := filename f;
                       md_file_size_bytes := Py.len (file f);
                       md_content_type := content_type f |}.
Proof.
  intros Hct Hname Hext Hsize Hok.
  assert (Hf : format_ok f = true).
  { apply format_ok_iff. split; [exact Hct|]. now exists name. }
  unfold post_extract_text.
  rewrite (extract_text_past_guards _ _ _ _ Hf Hsize).
  rewrite (extract_text_from_image_answer _ _ _
             (nonempty_of_len _ (proj1 Hsize)) Hok).
  destruct (Vision.text_annotations _) as [|first rest];
    eexists; cbn [fst]; repeat split.
Qed.

Lemma C1_valid_jpeg_succeeds_witness :
  exists r : SuccessResponseModel,
    fst (post_extract_text (Some hello_client) 12 test_jpg fresh_world)
    = {| resp_status_code := 200; resp_content := SuccessBody r |}
    /\ success r = true
    /\ metadata r = {| md_filename := Some "test.jpg";
                       md_file_size_bytes := 8;
                       md_content_type := Some "image/jpeg" |}.
Proof.
  apply (C1_valid_jpeg_succeeds hello_client 12 test_jpg fresh_world "test.jpg").
  - reflexivity.
  - reflexivity.
  - reflexivity.
  - vm_compute. split; [reflexivity | discriminate].
  - reflexivity.
Defined.

(** *** The extraction operation *)

(** C2, as the code has it: for non-empty image bytes and an initialized
    client that answers without an error, the provider is asked once;
    an empty annotation list gives the text [""] with confidence 0.0;
    a non-empty list gives the description of its first entry, with the
    fixed confidence 0.95 when that description is not empty and 0.0
    when it is. *)
Theorem C2_extraction_result
  (client : Vision.ImageAnnotatorClient) (image : Py.bytes) (w : World) :
  image <> [] ->
  Py.truthy (Vision.message (Vision.error (client (provider_calls w) image)))
  = false ->
  let texts := Vision.text_annotations (client (provider_calls w) image) in
  let outcome := extract_text_from_image (Some client) image w in
  provider_calls (snd outcome) = (provider_calls w ++ [image])%list
  /\ (texts = [] -> fst outcome = inr ("", 0%float))
  /\ (forall first rest, texts = first :: rest ->
        (Vision.description first <> "" ->
           fst outcome = inr (Vision.description first, 0.95%float))
        /\ (Vision.description first = "" ->
              fst outcome = inr ("", 0%float))).
Proof.
  intros Hne Hok texts outcome. subst texts outcome.
  rewrite (extract_text_from_image_answer _ _ _ Hne Hok). cbn [fst snd].
  split; [reflexivity|]. split.
  - intros ->. reflexivity.
  - intros first rest ->. split.
    + intros Hd. destruct (Vision.description first); [congruence | reflexivity].
    + intros ->. reflexivity.
Qed.

Lemma C2_extraction_result_witness :
  fst (extract_text_from_image (Some hello_client) SAMPLE_JPEG fresh_world)
  = inr ("Hello World", 0.95%float)
  /\ fst (extract_text_from_image (Some no_text_client) SAMPLE_JPEG fresh_world)
     = inr ("", 0%float).
Proof.
  assert (Hne : SAMPLE_JPEG <> []) by discriminate.
  split.
  - apply (proj2 (proj2 (C2_extraction_result hello_client SAMPLE_JPEG
                           fresh_world Hne eq_refl))
             {| Vision.description := "Hello World" |} [] eq_refl).
    discriminate.
  - apply (proj1 (proj2 (C2_extraction_result no_text_client SAMPLE_JPEG
                           fresh_world Hne eq_refl))).
    reflexivity.
Defined.

(** C2 as stated fails on an answer whose first annotation has an empty
    description: the list is not empty, yet the confidence returned is
    0.0 and not the placeholder 0.95. *)
Lemma C2_blank_first_annotation :
  Py.truthy (Vision.message (Vision.error (blank_client [] SAMPLE_JPEG))) = false
  /\ Vision.text_annotations (blank_client [] SAMPLE_JPEG)
     = [ {| Vision.description := "" |}; {| Vision.description := "stray" |} ]
  /\ fst (extract_text_from_image (Some blank_client) SAMPLE_JPEG fresh_world)
     = inr ("", 0%float)
  /\ fst (extract_text_from_image (Some blank_client) SAMPLE_JPEG fresh_world)
     <> inr ("", 0.95%float).
Proof.
  repeat split. intros H. apply placeholder_not_zero.
  exact (eq_sym (f_equal (fun r : HTTPException + string * float =>
                            match r with
                            | inr (_, c) => c
                            | inl _ => 0%float
                            end) H)).
Qed.

(** *** Failure responses *)

(** C3: the code does not do what the claim says.  A request with a
    content type that is not JPEG fails with status 400, as claimed for
    a validation error, but its body holds the detail alone: it is no
    failure envelope with [success = false], an error category and
    [processing_time_ms = 0].  The handler of status 413 is the one
    place that builds the envelope, for every exception of that
    status. *)
Lemma C3_detail_only_body :
  fst (extract_text (Some hello_client) 0 test_png fresh_world)
  = inl {| status_code := 400;
           detail := "Invalid file format. Only JPG/JPEG images are supported. Received: image/png" |}
  /\ fst (post_extract_text (Some hello_client) 0 test_png fresh_world)
     = {| resp_status_code := 400;
          resp_content :=
            DetailBody "Invalid file format. Only JPG/JPEG images are supported. Received: image/png" |}
  /\ (forall envelope : ErrorResponseModel,
        resp_content
          (fst (post_extract_text (Some hello_client) 0 test_png fresh_world))
        <> ErrorBody envelope)
  /\ (forall exc : HTTPException,
        status_code exc = 413 ->
        handle_exception exc
        = {| resp_status_code := 413;
             resp_content :=
               ErrorBody {| err_success := false;
                            err_error := "Payload too large";
                            err_detail := "File size exceeds 10MB limit";
                            err_processing_time_ms := 0 |} |}).
Proof.
  repeat split.
  - intros envelope H. discriminate H.
  - intros exc H. unfold handle_exception. now rewrite H.
Qed.

(** *** Order of the validation checks *)

(** C4, as the code has it: the checks run in the order unsupported
    content type, missing file name, unsupported extension, oversized
    payload, empty payload; the first one that fails gives the single
    error raised, and the handler raises nothing else.  Every check has
    a message of its own; the status is 400 for each check except the
    oversized payload, which has 413. *)
Theorem C4_first_failing_check_wins (f : UploadFile) (w : World) :
  map fst validation_checks
  = [unsupported_content_type; missing_filename; unsupported_extension;
     oversized; empty_payload]
  /\ extract_text_guards f w
     = (match first_failure f with
        | Some e => inl e
        | None => inr (file f, Py.len (file f))
        end, w)
  /\ (forall vc elapsed e,
        first_failure f = Some e ->
        extract_text vc elapsed f w = (inl e, w))
  /\ (forall before check after,
        validation_checks = (before ++ check :: after)%list ->
        forallb (fun c => negb (fst c f)) before = true ->
        fst check f = true ->
        first_failure f = Some (snd check f))
  /\ map (fun check => status_code (snd check f)) validation_checks
     = [400; 400; 400; 413; 400]
  /\ (forall i j ci cj (g : UploadFile),
        nth_error validation_checks i = Some ci ->
        nth_error validation_checks j = Some cj ->
        i <> j ->
        detail (snd ci f) <> detail (snd cj g)).
Proof.
  split; [reflexivity|].
  split; [apply extract_text_guards_spec|].
  split; [intros vc elapsed e He;
          apply (post_extract_text_rejected vc elapsed f w e He)|].
  split; [|split; [reflexivity|]].
  - intros before check after Hsplit Hbefore Hcheck.
    unfold first_failure. rewrite Hsplit. clear Hsplit.
    induction before as [|c before IH]; cbn [app find].
    + now rewrite Hcheck.
    + cbn [forallb] in Hbefore. apply andb_true_iff in Hbefore.
      destruct Hbefore as [Hc Hbefore].
      destruct (fst c f); [discriminate Hc | exact (IH Hbefore)].
  - intros i j ci cj g Hi Hj Hij.
    unfold validation_checks in Hi, Hj.
    destruct i as [|[|[|[|[|i]]]]]; cbn [nth_error] in Hi;
      try (destruct i; discriminate Hi); injection Hi as <-;
      (destruct j as [|[|[|[|[|j]]]]]; cbn [nth_error] in Hj;
       try (destruct j; discriminate Hj); injection Hj as <-);
      try congruence; cbn; discriminate.
Qed.

Lemma C4_first_failing_check_wins_witness :
  first_failure empty_jpg = Some (empty_error empty_jpg)
  /\ extract_text (Some hello_client) 0 test_png fresh_world
     = (inl (content_type_error test_png), fresh_world).
Proof.
  pose proof (C4_first_failing_check_wins empty_jpg fresh_world)
    as (_ & _ & _ & Hfirst & _).
  pose proof (C4_first_failing_check_wins test_png fresh_world)
    as (_ & _ & Hraise & _).
  split.
  - apply (Hfirst
             [ (unsupported_content_type, content_type_error);
               (missing_filename, filename_error);
               (unsupported_extension, extension_error);
               (oversized, oversized_error) ]
             (empty_payload, empty_error) []); reflexivity.
  - apply Hraise. reflexivity.
Defined.

(** C4 as stated fails where it gives every check an error kind of its
    own: an unsupported content type and a missing file name are
    different checks, and both raise status 400. *)
Lemma C4_checks_share_status :
  first_failure test_png = Some (content_type_error test_png)
  /\ first_failure no_filename = Some (filename_error no_filename)
  /\ detail (content_type_error test_png) <> detail (filename_error no_filename)
  /\ status_code (content_type_error test_png) = 400
  /\ status_code (filename_error no_filename) = 400
  /\ resp_status_code
       (fst (post_extract_text (Some hello_client) 0 test_png fresh_world))
     = resp_status_code
         (fst (post_extract_text (Some hello_client) 0 no_filename fresh_world)).
Proof.
  repeat split. discriminate.
Qed.

(** *** The size limit *)

Lemma len_sized_jpg (n : Z) : 0 <= n -> Py.len (file (sized_jpg n)) = n.
Proof.
  intros Hn. unfold sized_jpg, Py.len. cbn [file].
  rewrite repeat_length. apply Z2Nat.id, Hn.
Qed.

(** C5: for an upload that is valid otherwise, the guards accept the
    sizes from 1 byte to 10 * 1024 * 1024 bytes and no other; a payload
    of exactly 10 * 1024 * 1024 bytes is passed on to the extraction and
    is not answered with 413, and every larger payload is answered with
    413. *)
Theorem C5_size_limit
  (vc : option Vision.ImageAnnotatorClient) (elapsed : Z)
  (f : UploadFile) (w : World) :
  fst (validate_image f w) = inr tt ->
  MAX_FILE_SIZE = 10485760
  /\ (Py.len (file f) = 10 * 1024 * 1024 ->
        extract_text_guards f w = (inr (file f, 10 * 1024 * 1024), w)
        /\ resp_status_code (fst (post_extract_text vc elapsed f w)) <> 413)
  /\ (10 * 1024 * 1024 < Py.len (file f) ->
        resp_status_code (fst (post_extract_text vc elapsed f w)) = 413)
  /\ (fst (extract_text_guards f w) = inr (file f, Py.len (file f))
      <-> 0 < Py.len (file f) <= 10 * 1024 * 1024).
Proof.
  intros Hf. apply validate_image_accepts_iff in Hf.
  change (10 * 1024 * 1024) with MAX_FILE_SIZE.
  split; [reflexivity|]. split; [|split].
  - intros Hlen.
    assert (Hs : 0 < Py.len (file f) <= MAX_FILE_SIZE)
      by (rewrite Hlen; unfold MAX_FILE_SIZE; lia).
    split.
    + rewrite <- Hlen. apply extract_text_guards_pass; assumption.
    + rewrite (post_extract_text_past_guards vc elapsed f w Hf Hs).
      destruct vc as [client|]; cbv zeta;
        [destruct (Py.truthy _)|]; cbn [fst resp_status_code]; discriminate.
  - intros Hbig.
    assert (Hff : first_failure f = Some (oversized_error f)).
    { unfold format_ok in Hf. unfold first_failure, validation_checks.
      cbn [find fst snd].
      destruct (unsupported_content_type f), (missing_filename f),
        (unsupported_extension f); try discriminate Hf.
      unfold oversized. now rewrite (proj2 (Z.ltb_lt _ _) Hbig). }
    destruct (post_extract_text_rejected vc elapsed f w _ Hff) as [_ ->].
    reflexivity.
  - rewrite extract_text_guards_spec. cbn [fst]. split.
    + intros H. apply first_failure_none.
      destruct (first_failure f); [discriminate H | reflexivity].
    + intros Hs. now rewrite (proj2 (first_failure_none f) (conj Hf Hs)).
Qed.

Lemma C5_size_limit_witness :
  resp_status_code
    (fst (post_extract_text (Some hello_client) 0
            (sized_jpg (10 * 1024 * 1024)) fresh_world)) <> 413
  /\ resp_status_code
       (fst (post_extract_text (Some hello_client) 0
               (sized_jpg (10 * 1024 * 1024 + 1)) fresh_world)) = 413.
Proof.
  split.
  - apply (C5_size_limit (Some hello_client) 0
             (sized_jpg (10 * 1024 * 1024)) fresh_world eq_refl).
    apply len_sized_jpg. discriminate.
  - apply (C5_size_limit (Some hello_client) 0
             (sized_jpg (10 * 1024 * 1024 + 1)) fresh_world eq_refl).
    rewrite len_sized_jpg; [reflexivity | discriminate].
Defined.

(** *** Provider errors and a missing client *)

(** C6: when an upload passes validation and the initialized client
    answers it with a non-empty error message, the extraction raises
    status 500 and the response has status 500; the provider has been
    asked exactly once, whatever it would answer to a second request. *)
Theorem C6_provider_error_gives_500
  (client : Vision.ImageAnnotatorClient) (elapsed : Z)
  (f : UploadFile) (w : World) :
  fst (validate_image f w) = inr tt ->
  0 < Py.len (file f) <= MAX_FILE_SIZE ->
  Vision.message (Vision.error (client (provider_calls w) (file f))) <> "" ->
  let outcome := post_extract_text (Some client) elapsed f w in
  fst (extract_text_from_image (Some client) (file f) w)
  = inl {| status_code := 500;
           detail := "Failed to process image with Vision API" |}
  /\ fst outcome
     = {| resp_status_code := 500;
          resp_content := DetailBody "Failed to process image with Vision API" |}
  /\ provider_calls (snd outcome) = (provider_calls w ++ [file f])%list.
Proof.
  intros Hf Hs Hmsg outcome. subst outcome.
  apply validate_image_accepts_iff in Hf.
  assert (Herr : Py.truthy (Vision.message
                   (Vision.error (client (provider_calls w) (file f)))) = true).
  { destruct (Vision.message _); [congruence | reflexivity]. }
  rewrite (post_extract_text_past_guards _ elapsed f w Hf Hs). cbv zeta.
  rewrite Herr.
  rewrite (extract_text_from_image_provider_error _ _ _
             (nonempty_of_len _ (proj1 Hs)) Herr).
  repeat split.
Qed.

Lemma C6_provider_error_gives_500_witness :
  fst (post_extract_text (Some flaky_client) 0 test_jpg fresh_world)
  = {| resp_status_code := 500;
       resp_content := DetailBody "Failed to process image with Vision API" |}
  /\ provider_calls
       (snd (post_extract_text (Some flaky_client) 0 test_jpg fresh_world))
     = [SAMPLE_JPEG].
Proof.
  apply (C6_provider_error_gives_500 flaky_client 0 test_jpg fresh_world).
  - reflexivity.
  - vm_compute. split; [reflexivity | discriminate].
  - discriminate.
Defined.

(** C7: when an upload passes validation and the client was never
    initialized, the extraction raises status 503 before it looks at
    the image, the response has status 503 with a detail that contains
    "unavailable", and the provider has not been asked. *)
Theorem C7_missing_client_gives_503
  (elapsed : Z) (f : UploadFile) (w : World) :
  fst (validate_image f w) = inr tt ->
  0 < Py.len (file f) <= MAX_FILE_SIZE ->
  let outcome := post_extract_text None elapsed f w in
  (forall image : Py.bytes,
     fst (extract_text_from_image None image w)
     = inl {| status_code := 503; detail := "Vision API service unavailable" |})
  /\ resp_status_code (fst outcome) = 503
  /\ (exists d,
        resp_content (fst outcome) = DetailBody d
        /\ Py.contains "unavailable" d = true)
  /\ provider_calls (snd outcome) = provider_calls w.
Proof.
  intros Hf Hs outcome. subst outcome.
  apply validate_image_accepts_iff in Hf.
  rewrite (post_extract_text_past_guards None elapsed f w Hf Hs).
  split; [reflexivity|]. split; [reflexivity|]. split; [|reflexivity].
  eexists. split; reflexivity.
Qed.

Lemma C7_missing_client_gives_503_witness :
  post_extract_text None 0 test_jpg fresh_world
  = ({| resp_status_code := 503;
        resp_content := DetailBody "Vision API service unavailable" |},
     {| provider_calls := [];
        log := [(ERROR, "Vision API client not initialized")] |})
  /\ resp_status_code (fst (post_extract_text None 0 test_jpg fresh_world)) = 503.
Proof.
  split; [reflexivity|].
  apply (C7_missing_client_gives_503 0 test_jpg fresh_world).
  - reflexivity.
  - vm_compute. split; [reflexivity | discriminate].
Defined.

(** *** The guard on empty content *)

(** C8: the handler calls the extraction with the bytes of the upload
    and only when they are not empty, so the exception
    400 "Empty image content" of the extraction never leaves the
    handler; an upload of zero bytes is rejected by the guards with a
    400 of their own and the world untouched.  The guard itself is
    live: the extraction raises it on empty bytes when a client is
    there. *)
Theorem C8_empty_content_guard_unreachable
  (vc : option Vision.ImageAnnotatorClient) (elapsed : Z)
  (f : UploadFile) (w : World) :
  (forall client : Vision.ImageAnnotatorClient,
     fst (extract_text_from_image (Some client) [] w)
     = inl {| status_code := 400; detail := "Empty image content" |})
  /\ (forall content size w',
        extract_text_guards f w = (inr (content, size), w') ->
        content = file f /\ content <> [])
  /\ fst (extract_text vc elapsed f w)
     <> inl {| status_code := 400; detail := "Empty image content" |}
  /\ (file f = [] ->
      exists e,
        extract_text vc elapsed f w = (inl e, w)
        /\ status_code e = 400
        /\ detail e <> "Empty image content").
Proof.
  split; [reflexivity|]. split; [|split].
  - intros content size w' H. rewrite extract_text_guards_spec in H.
    destruct (first_failure f) eqn:Hff; [discriminate H|].
    injection H as <- _ _. split; [reflexivity|].
    apply nonempty_of_len, (proj1 (first_failure_none f) Hff).
  - destruct (first_failure f) as [e|] eqn:Hff.
    + destruct (post_extract_text_rejected vc elapsed f w e Hff) as [-> _].
      cbn [fst]. failing_check f Hff; cbn; discriminate.
    + destruct (proj1 (first_failure_none f) Hff) as [Hf Hs].
      rewrite (extract_text_past_guards vc elapsed f w Hf Hs).
      pose proof (nonempty_of_len _ (proj1 Hs)) as Hne.
      destruct vc as [client|].
      * destruct (Py.truthy (Vision.message
                    (Vision.error (client (provider_calls w) (file f)))))
          eqn:Herr.
        -- rewrite (extract_text_from_image_provider_error _ _ _ Hne Herr).
           discriminate.
        -- rewrite (extract_text_from_image_answer _ _ _ Hne Herr).
           destruct (Vision.text_annotations _); discriminate.
      * rewrite extract_text_from_image_unavailable. discriminate.
  - intros Hempty.
    assert (Hlen : Py.len (file f) = 0) by now rewrite Hempty.
    destruct (first_failure f) as [e|] eqn:Hff.
    + exists e. split; [apply (post_extract_text_rejected vc elapsed f w e Hff)|].
      failing_check f Hff; cbn; try (split; [reflexivity | discriminate]).
      unfold oversized in *. rewrite Hlen in *. discriminate.
    + destruct (proj1 (first_failure_none f) Hff) as [_ Hs]. lia.
Qed.

Lemma C8_empty_content_guard_unreachable_witness :
  exists e,
    extract_text (Some hello_client) 0 empty_jpg fresh_world
    = (inl e, fresh_world)
    /\ status_code e = 400
    /\ detail e <> "Empty image content".
Proof.
  exact (proj2 (proj2 (proj2
           (C8_empty_content_guard_unreachable (Some hello_client) 0
              empty_jpg fresh_world))) eq_refl).
Defined.

(** *** Letter case of the extension *)

(** C9: validation gives the same outcome for a file name and for that
    name with its extension in lower case, so it accepts the one if and
    only if it accepts the other; and where a root with an extension in
    lower case is split into the two and the extension is one of .jpg
    and .jpeg, the same root with the extension in any letter case
    passes the extension check. *)
Theorem C9_extension_case_insensitive (f : UploadFile) (w : World) :
  validate_image (with_lower_extension f) w = validate_image f w
  /\ (fst (validate_image f w) = inr tt
      <-> fst (validate_image (with_lower_extension f) w) = inr tt)
  /\ (forall root ext : string,
        filename f = Some (root ++ ext) ->
        Py.splitext (root ++ Py.lower ext) = (root, Py.lower ext) ->
        In (Py.lower ext) ALLOWED_EXTENSIONS ->
        filename (with_lower_extension f) = Some (root ++ Py.lower ext)
        /\ unsupported_extension f = false).
Proof.
  assert (Hsame : validate_image (with_lower_extension f) w
                  = validate_image f w).
  { rewrite !validate_image_spec.
    unfold unsupported_content_type, missing_filename, unsupported_extension,
      content_type_error, filename_error, extension_error, extension_of,
      with_lower_extension.
    cbn [content_type filename].
    destruct (filename f) as [name|]; cbn [option_map]; [|reflexivity].
    rewrite splitext_lower_extension. cbn [snd]. rewrite lower_idem.
    replace (Py.truthy_opt (Some (lower_extension name)))
      with (Py.truthy_opt (Some name)); [reflexivity|].
    pose proof (lower_extension_length name) as Hl.
    destruct name, (lower_extension _); cbn in *; congruence. }
  split; [exact Hsame|]. split; [now rewrite Hsame|].
  intros root ext Hname Hsplit Hin.
  pose proof (splitext_any_case root ext Hsplit) as Hs.
  unfold with_lower_extension, unsupported_extension, extension_of.
  cbn [filename]. rewrite Hname. cbn [option_map].
  unfold lower_extension. rewrite Hs. cbn [fst snd].
  split; [reflexivity|].
  destruct Hin as [<- | [<- | []]]; reflexivity.
Qed.

Lemma C9_extension_case_insensitive_witness :
  fst (validate_image photo_upper_jpg fresh_world) = inr tt
  /\ unsupported_extension photo_upper_jpg = false.
Proof.
  pose proof (C9_extension_case_insensitive photo_upper_jpg fresh_world)
    as (_ & Hiff & Hany).
  split.
  - apply (proj2 Hiff). reflexivity.
  - apply (Hany "photo" ".JPG"); [reflexivity | reflexivity |].
    left. reflexivity.
Defined.

(** *** The health endpoint *)

(** C10: [GET /health] answers with the top-level status ["healthy"]
    whether or not the Vision client was initialized; the [vision_api]
    field alone depends on the client: ["healthy"] when it is
    initialized, ["unavailable"] when it is not. *)
Theorem C10_health_status :
  forall (vision_client : option Vision.ImageAnnotatorClient) (now : float),
    status (health vision_client now) = "healthy"
    /\ vision_api (health vision_client now)
       = match vision_client with
         | Some _ => "healthy"
         | None => "unavailable"
         end
    /\ (vision_api (health vision_client now) = "healthy"
        <-> vision_client <> None).
Proof.
  intros [client|] now; cbn; repeat split; try congruence; try discriminate.
Qed.

(** ** Further properties of the handlers *)

(** An error of the guards has status 400 or 413 and a detail that is
    not empty; its response is the 413 envelope or the detail under
    status 400. *)
Lemma first_failure_shape (f : UploadFile) (e : HTTPException) :
  first_failure f = Some e ->
  detail e <> ""
  /\ ((status_code e = 400
       /\ handle_exception e
          = {| resp_status_code := 400; resp_content := DetailBody (detail e) |})
      \/ (status_code e = 413
          /\ handle_exception e
             = {| resp_status_code := 413;
                  resp_content := ErrorBody payload_too_large_envelope |})).
Proof.
  intros Hff. failing_check f Hff; (split; [cbn; discriminate|]);
    try (left; split; reflexivity).
  right. split; reflexivity.
Qed.

(** The two ways of a request: rejected by a guard with the world left
    as it was, or passed on to the extraction. *)
Lemma post_extract_text_cases
  (vc : option Vision.ImageAnnotatorClient) (elapsed : Z)
  (f : UploadFile) (w : World) :
  (exists e,
     first_failure f = Some e
     /\ extract_text_guards f w = (inl e, w)
     /\ post_extract_text vc elapsed f w = (handle_exception e, w))
  \/ (first_failure f = None
      /\ format_ok f = true
      /\ 0 < Py.len (file f) <= MAX_FILE_SIZE
      /\ file f <> []
      /\ extract_text_guards f w = (inr (file f, Py.len (file f)), w)).
Proof.
  destruct (first_failure f) as [e|] eqn:Hff.
  - left. exists e. split; [reflexivity|].
    split; [now rewrite extract_text_guards_spec, Hff|].
    apply (post_extract_text_rejected vc elapsed f w e Hff).
  - right. destruct (proj1 (first_failure_none f) Hff) as [Hf Hs].
    repeat split; try assumption; try apply Hs.
    + apply nonempty_of_len, Hs.
    + now apply extract_text_guards_pass.
Qed.

Lemma truthy_false_iff (s : string) : Py.truthy s = false <-> s = "".
Proof. destruct s; cbn; split; intros H; try reflexivity; discriminate H. Qed.

(** X2: a response with status 200 is given to valid uploads only: the
    content type is an allowed one, the file name is not empty and has
    an allowed extension, the payload has between 1 byte and 10MB, the
    client is initialized and its answer carries no error message.  The
    body then has [success = true], the time handed in, and the
    metadata of the upload. *)
Theorem X2_success_only_for_valid_upload
  (vc : option Vision.ImageAnnotatorClient) (elapsed : Z)
  (f : UploadFile) (w : World) :
  resp_status_code (fst (post_extract_text vc elapsed f w)) = 200 ->
  Py.opt_in (content_type f) ALLOWED_CONTENT_TYPES = true
  /\ (exists name,
        filename f = Some name /\ name <> ""
        /\ Py.str_in (Py.lower (snd (Py.splitext name))) ALLOWED_EXTENSIONS
           = true)
  /\ 0 < Py.len (file f) <= MAX_FILE_SIZE
  /\ (exists client,
        vc = Some client
        /\ Vision.message (Vision.error (client (provider_calls w) (file f)))
           = "")
  /\ (exists m,
        resp_content (fst (post_extract_text vc elapsed f w)) = SuccessBody m
        /\ success m = true
        /\ processing_time_ms m = elapsed
        /\ metadata m = {| md_filename := filename f;
                           md_file_size_bytes := Py.len (file f);
                           md_content_type := content_type f |}).
Proof.
  destruct (post_extract_text_cases vc elapsed f w)
    as [(e & Hff & _ & ->) | (_ & Hf & Hs & _ & _)].
  - cbn [fst]. intros H.
    destruct (first_failure_shape f e Hff) as [_ [[_ He] | [_ He]]];
      rewrite He in H; discriminate H.
  - rewrite (post_extract_text_past_guards vc elapsed f w Hf Hs).
    destruct (proj1 (format_ok_iff f) Hf) as [Hct (name & Hn & He)].
    destruct vc as [client|]; cbv zeta; [|discriminate].
    destruct (Py.truthy _) eqn:Herr; [discriminate|]. intros _.
    split; [exact Hct|]. split; [|split; [exact Hs|split]].
    + exists name. split; [exact Hn|]. split; [|exact He].
      intros ->. discriminate He.
    + exists client. split; [reflexivity|]. now apply truthy_false_iff.
    + eexists. cbn [fst resp_content]. repeat split.
Qed.

Lemma X2_success_only_for_valid_upload_witness :
  Py.opt_in (content_type test_jpg) ALLOWED_CONTENT_TYPES = true
  /\ 0 < Py.len (file test_jpg) <= MAX_FILE_SIZE.
Proof.
  pose proof (X2_success_only_for_valid_upload (Some hello_client) 7 test_jpg
                fresh_world eq_refl) as (Hct & _ & Hs & _).
  exact (conj Hct Hs).
Defined.

(** X3: in a success body the text is the description of the first
    annotation of the provider's answer, or empty when there is none,
    and the confidence follows the text: 0.0 for the empty text and
    0.95 for any other. *)
Theorem X3_confidence_follows_text
  (vc : option Vision.ImageAnnotatorClient) (elapsed : Z)
  (f : UploadFile) (w : World) (m : SuccessResponseModel) :
  resp_content (fst (post_extract_text vc elapsed f w)) = SuccessBody m ->
  (exists client,
     vc = Some client
     /\ text m
        = match Vision.text_annotations (client (provider_calls w) (file f)) with
          | [] => ""
          | first :: _ => Vision.description first
          end)
  /\ ((text m = "" /\ confidence m = 0%float)
      \/ (text m <> "" /\ confidence m = 0.95%float)).
Proof.
  destruct (post_extract_text_cases vc elapsed f w)
    as [(e & Hff & _ & ->) | (_ & Hf & Hs & _ & _)].
  - cbn [fst]. intros H.
    destruct (first_failure_shape f e Hff) as [_ [[_ He] | [_ He]]];
      rewrite He in H; discriminate H.
  - rewrite (post_extract_text_past_guards vc elapsed f w Hf Hs).
    destruct vc as [client|]; cbv zeta; [|discriminate].
    destruct (Py.truthy _); [discriminate|]. cbn [fst resp_content].
    intros H. injection H as <-. cbn [text confidence].
    split.
    + exists client. split; [reflexivity|].
      now destruct (Vision.text_annotations _).
    + destruct (Vision.text_annotations _) as [|first rest]; cbn [fst snd];
        [now left|].
      destruct (Vision.description first); cbn [Py.truthy];
        [now left | right; split; [discriminate | reflexivity]].
Qed.

Lemma X3_confidence_follows_text_witness :
  (exists client,
     Some blank_client = Some client
     /\ "" = match Vision.text_annotations (client [] SAMPLE_JPEG) with
             | [] => ""
             | first :: _ => Vision.description first
             end)
  /\ (("" = "" /\ 0%float = 0%float)
      \/ ("" <> "" /\ 0%float = 0.95%float)).
Proof.
  exact (X3_confidence_follows_text (Some blank_client) 7 test_jpg fresh_world
           {| success := true; text := ""; confidence := 0%float;
              processing_time_ms := 7;
              metadata := {| md_filename := Some "test.jpg";
                             md_file_size_bytes := 8;
                             md_content_type := Some "image/jpeg" |} |}
           eq_refl).
Defined.

(** X4: a request reaches the provider at most once, and then with the
    bytes of the upload as they came; earlier calls stay on record.
    The provider is asked exactly when the upload passes the guards and
    a client is there. *)
Theorem X4_provider_asked_at_most_once
  (vc : option Vision.ImageAnnotatorClient) (elapsed : Z)
  (f : UploadFile) (w : World) :
  let after := snd (post_extract_text vc elapsed f w) in
  (provider_calls after = (provider_calls w ++ [file f])%list
   /\ vc <> None
   /\ fst (extract_text_guards f w) = inr (file f, Py.len (file f)))
  \/ (provider_calls after = provider_calls w
      /\ (vc = None \/ exists e, fst (extract_text_guards f w) = inl e)).
Proof.
  cbv zeta.
  destruct (post_extract_text_cases vc elapsed f w)
    as [(e & _ & Hg & ->) | (_ & Hf & Hs & _ & Hg)]; rewrite Hg; cbn [fst snd].
  - right. split; [reflexivity|]. right. now exists e.
  - rewrite (post_extract_text_past_guards vc elapsed f w Hf Hs).
    destruct vc as [client|]; cbv zeta; [destruct (Py.truthy _)|]; cbn [snd].
    + left. repeat split. discriminate.
    + left. repeat split. discriminate.
    + right. split; [reflexivity | now left].
Qed.

(** X6: the guards come before the look at the client.  An upload that
    a guard rejects gets the response of that error, with the world
    unchanged, whatever the client and the time: a missing client does
    not turn a 400 or a 413 into a 503. *)
Theorem X6_rejection_ignores_client
  (f : UploadFile) (w : World) (e : HTTPException) :
  fst (extract_text_guards f w) = inl e ->
  forall (vc : option Vision.ImageAnnotatorClient) (elapsed : Z),
    post_extract_text vc elapsed f w = (handle_exception e, w)
    /\ (resp_status_code (handle_exception e) = 400
        \/ resp_status_code (handle_exception e) = 413).
Proof.
  intros Hg vc elapsed.
  destruct (post_extract_text_cases vc elapsed f w)
    as [(e' & Hff & Hg' & Hp) | (_ & _ & _ & _ & Hg')];
    rewrite Hg' in Hg; [|discriminate Hg].
  injection Hg as ->. split; [exact Hp|].
  destruct (first_failure_shape f e Hff) as [_ [[_ ->] | [_ ->]]];
    [now left | now right].
Qed.

Lemma X6_rejection_ignores_client_witness :
  post_extract_text None 7 empty_jpg fresh_world
  = ({| resp_status_code := 400;
        resp_content := DetailBody "Empty file uploaded" |}, fresh_world).
Proof.
  exact (proj1 (X6_rejection_ignores_client empty_jpg fresh_world
                  {| status_code := 400; detail := "Empty file uploaded" |}
                  eq_refl None 7)).
Defined.



(** X8: start-up writes one log record and asks the provider nothing.
    The client is missing exactly when its construction raised; the
    record then holds the text of the exception, [GET /health] reports
    ["unavailable"], and every upload that passes the guards is
    answered 503 without a call to the provider. *)
Theorem X8_startup_without_client
  (constructed : string + Vision.ImageAnnotatorClient)
  (w0 : World) (now : float) :
  let vc := fst (lifespan constructed w0) in
  let w1 := snd (lifespan constructed w0) in
  provider_calls w1 = provider_calls w0
  /\ (exists record, log w1 = (log w0 ++ [record])%list)
  /\ (vc = None <-> exists e, constructed = inl e)
  /\ (vision_api (health vc now) = "unavailable"
      <-> exists e, constructed = inl e)
  /\ (forall e,
        constructed = inl e ->
        log w1
        = (log w0 ++ [(ERROR, ("Failed to initialize Vision API client: "
                               ++ e)%string)])%list
        /\ forall (f : UploadFile) (elapsed : Z) (w : World),
             fst (extract_text_guards f w) = inr (file f, Py.len (file f)) ->
             resp_status_code (fst (post_extract_text vc elapsed f w)) = 503
             /\ provider_calls (snd (post_extract_text vc elapsed f w))
                = provider_calls w).
Proof.
  cbv zeta. destruct constructed as [e|client]; cbn [lifespan fst snd].
  - split; [reflexivity|]. split; [eexists; reflexivity|].
    split; [split; [intros _; now exists e | reflexivity]|].
    split; [split; [intros _; now exists e | reflexivity]|].
    intros e' He. injection He as <-. split; [reflexivity|].
    intros f elapsed w Hg.
    destruct (post_extract_text_cases None elapsed f w)
      as [(e' & _ & Hg' & _) | (_ & Hf & Hs & _ & _)];
      [rewrite Hg' in Hg; discriminate Hg|].
    rewrite (post_extract_text_past_guards None elapsed f w Hf Hs).
    split; reflexivity.
  - split; [reflexivity|]. split; [eexists; reflexivity|].
    split; [split; [discriminate | intros [e He]; discriminate He]|].
    split; [split; [discriminate | intros [e He]; discriminate He]|].
    intros e He. discriminate He.
Qed.

Lemma X8_startup_without_client_witness :
  log (snd (lifespan (inl "no credentials") fresh_world))
  = [(ERROR, "Failed to initialize Vision API client: no credentials")]
  /\ resp_status_code
       (fst (post_extract_text (fst (lifespan (inl "no credentials") fresh_world))
               7 test_jpg fresh_world)) = 503.
Proof.
  pose proof (X8_startup_without_client (inl "no credentials") fresh_world
                0%float) as (_ & _ & _ & _ & H).
  destruct (H "no credentials" eq_refl) as [Hlog Hreq].
  split; [exact Hlog|].
  exact (proj1 (Hreq test_jpg 7 fresh_world eq_refl)).
Defined.

(** X9: the content type is compared as it stands.  [validate_image]
    raises the error on the file format, which repeats the type
    received ("None" when there is none), exactly when the type is
    neither ["image/jpeg"] nor ["image/jpg"]; letter case and
    parameters are not allowed for. *)
Theorem X9_content_type_compared_exactly (f : UploadFile) (w : World) :
  validate_image f w
  = (inl {| status_code := 400;
            detail := "Invalid file format. Only JPG/JPEG images are supported. Received: "
                      ++ Py.format_opt (content_type f) |}, w)
  <-> (content_type f <> Some "image/jpeg"
       /\ content_type f <> Some "image/jpg").
Proof.
  rewrite validate_image_spec.
  unfold unsupported_content_type, Py.opt_in, Py.str_in, ALLOWED_CONTENT_TYPES.
  destruct (content_type f) as [ct|] eqn:Hct; cbn [existsb negb].
  - destruct (String.eqb_spec ct "image/jpeg") as [-> | Hj]; cbn [orb negb].
    { split; [|intros [H _]; congruence].
      destruct (missing_filename f); [discriminate|].
      destruct (unsupported_extension f); [|discriminate].
      unfold extension_error. cbn. discriminate. }
    destruct (String.eqb_spec ct "image/jpg") as [-> | Hg]; cbn [orb negb].
    { split; [|intros [_ H]; congruence].
      destruct (missing_filename f); [discriminate|].
      destruct (unsupported_extension f); [|discriminate].
      unfold extension_error. cbn. discriminate. }
    unfold content_type_error. rewrite Hct.
    split; [intros _; split; congruence | reflexivity].
  - unfold content_type_error. rewrite Hct.
    split; [intros _; split; discriminate | reflexivity].
Qed.

Lemma X9_content_type_compared_exactly_witness :
  validate_image upper_content_type fresh_world
  = (inl {| status_code := 400;
            detail := "Invalid file format. Only JPG/JPEG images are supported. Received: IMAGE/JPEG" |},
     fresh_world).
Proof.
  apply (proj2 (X9_content_type_compared_exactly upper_content_type fresh_world)).
  split; discriminate.
Defined.

(** *** File names that [validate_image] accepts and rejects *)

(** The two parts of [splitext] make up the name. *)
Lemma splitext_concat (name : string) :
  fst (Py.splitext name) ++ snd (Py.splitext name) = name.
Proof.
  unfold Py.splitext. cbv zeta. destruct (_ && _); cbn [fst snd].
  - apply take_drop.
  - apply string_app_empty_r.
Qed.

(** The dot-skipping loop finds a character only below [dotIndex]. *)
Lemma has_stem_true_lt (fuel : nat) (p : string) (i d : Z) :
  Py.has_stem fuel p i d = true -> i < d.
Proof.
  revert i. induction fuel as [|fuel IH]; intros i; cbn [Py.has_stem];
    [discriminate|].
  destruct (Z.ltb_spec i d); [|discriminate].
  destruct (negb _); [lia|]. intros Hrest. apply IH in Hrest. lia.
Qed.

(** An extension that is not empty leaves a root that is not empty. *)
Lemma splitext_root_nonempty (name : string) :
  snd (Py.splitext name) <> "" -> fst (Py.splitext name) <> "".
Proof.
  unfold Py.splitext. cbv zeta.
  destruct ((Py.rfind "/" name <? Py.rfind "." name) && _) eqn:Hcond;
    cbn [fst snd]; [|congruence].
  intros _. apply andb_true_iff in Hcond. destruct Hcond as [_ Hstem].
  apply has_stem_true_lt in Hstem.
  unfold Py.rfind in *.
  destruct (rfind_from_range "/" name 0 ltac:(lia)) as [Hs | Hs];
    destruct (rfind_from_range "." name 0 ltac:(lia)) as [Hd | Hd]; try lia.
  all: intros Hempty;
    pose proof (take_length (Z.to_nat (Py.rfind_from "." name 0)) name
                  ltac:(lia)) as Hl;
    rewrite Hempty in Hl; cbn in Hl; lia.
Qed.

(** A string without the character [c] has no last [c]. *)
Lemma rfind_from_absent (c : ascii) (s : string) (i : Z) :
  Py.contains (String c "") s = false -> Py.rfind_from c s i = -1.
Proof.
  revert i. induction s as [|a s IH]; intros i H; [reflexivity|].
  cbn [Py.contains Py.prefix_of] in H. apply orb_false_iff in H.
  destruct H as [Ha Hs]. rewrite andb_true_r in Ha.
  cbn [Py.rfind_from]. rewrite (IH (i + 1) Hs). cbn.
  now rewrite Ascii.eqb_sym, Ha.
Qed.

Lemma rfind_from_app_absent (c : ascii) (a b : string) (i : Z) :
  Py.contains (String c "") b = false ->
  Py.rfind_from c (a ++ b) i = Py.rfind_from c a i.
Proof.
  intros Hb. revert i. induction a as [|x a IH]; intros i.
  - cbn [append]. rewrite (rfind_from_absent c b i Hb). reflexivity.
  - cbn [append Py.rfind_from]. now rewrite IH.
Qed.

Lemma rfind_from_app_present (c : ascii) (a b : string) (i : Z) :
  0 <= i ->
  i + Z.of_nat (String.length a) <= Py.rfind_from c (a ++ String c b) i.
Proof.
  revert i. induction a as [|x a IH]; intros i Hi.
  - cbn [append Py.rfind_from String.length]. cbv zeta.
    destruct (rfind_from_range c b (i + 1) ltac:(lia)) as [-> | Hr].
    + cbn. rewrite Ascii.eqb_refl. lia.
    + destruct (Z.leb_spec 0 (Py.rfind_from c b (i + 1))); lia.
  - cbn [append Py.rfind_from String.length]. cbv zeta.
    specialize (IH (i + 1) ltac:(lia)).
    destruct (Z.leb_spec 0 (Py.rfind_from c (a ++ String c b) (i + 1))); lia.
Qed.

(** A name whose part after the last slash holds no dot has no
    extension. *)
Lemma splitext_no_dot (name base : string) :
  Py.contains "." base = false ->
  (name = base \/ exists dir, name = dir ++ "/" ++ base) ->
  Py.splitext name = (name, "").
Proof.
  intros Hb [-> | [dir ->]]; unfold Py.splitext, Py.rfind; cbv zeta.
  - rewrite (rfind_from_absent "." base 0 Hb).
    destruct (rfind_from_range "/" base 0 ltac:(lia)) as [-> | Hs];
      [reflexivity|].
    now rewrite (proj2 (Z.ltb_ge _ _)) by lia.
  - assert (Hb' : Py.contains "." ("/" ++ base) = false) by (cbn; exact Hb).
    rewrite (rfind_from_app_absent "." dir _ 0 Hb').
    pose proof (rfind_from_app_present "/" dir base 0 ltac:(lia)) as Hsep.
    cbn [append] in *.
    destruct (rfind_from_range "." dir 0 ltac:(lia)) as [Hd | Hd];
      now rewrite (proj2 (Z.ltb_ge _ _)) by lia.
Qed.

(** X10: a file name that [validate_image] accepts is a root that is
    not empty followed by an extension that reads .jpg or .jpeg in
    lower case; the extension alone, as in ".jpg", is no accepted
    name. *)
Theorem X10_accepted_name_has_root (f : UploadFile) (w : World) :
  fst (validate_image f w) = inr tt ->
  exists root ext,
    filename f = Some (root ++ ext)
    /\ Py.splitext (root ++ ext) = (root, ext)
    /\ root <> ""
    /\ (Py.lower ext = ".jpg" \/ Py.lower ext = ".jpeg").
Proof.
  intros H. apply validate_image_accepts_iff, format_ok_iff in H.
  destruct H as [_ (name & Hn & He)].
  exists (fst (Py.splitext name)), (snd (Py.splitext name)).
  rewrite splitext_concat. split; [exact Hn|].
  split; [now destruct (Py.splitext name)|].
  assert (Hext : Py.lower (snd (Py.splitext name)) = ".jpg"
                 \/ Py.lower (snd (Py.splitext name)) = ".jpeg").
  { unfold Py.str_in, ALLOWED_EXTENSIONS in He. cbn [existsb] in He.
    destruct (String.eqb_spec (Py.lower (snd (Py.splitext name))) ".jpg");
      [now left|].
    destruct (String.eqb_spec (Py.lower (snd (Py.splitext name))) ".jpeg");
      [now right | discriminate He]. }
  split; [|exact Hext].
  apply splitext_root_nonempty. intros Hempty. rewrite Hempty in Hext.
  destruct Hext as [Hx | Hx]; discriminate Hx.
Qed.

Lemma X10_accepted_name_has_root_witness :
  exists root ext,
    filename photo_upper_jpg = Some (root ++ ext)
    /\ Py.splitext (root ++ ext) = (root, ext)
    /\ root <> ""
    /\ (Py.lower ext = ".jpg" \/ Py.lower ext = ".jpeg").
Proof.
  exact (X10_accepted_name_has_root photo_upper_jpg fresh_world eq_refl).
Defined.

(** X11: with a JPEG content type, a file name whose part after the
    last slash holds no dot is rejected with status 400 and the detail
    on the file extension, which then shows an empty extension; a dot
    in a directory part does not count. *)
Theorem X11_name_without_extension_rejected
  (f : UploadFile) (w : World) (name base : string) :
  Py.opt_in (content_type f) ALLOWED_CONTENT_TYPES = true ->
  filename f = Some name ->
  name <> "" ->
  Py.contains "." base = false ->
  (name = base \/ exists dir, name = dir ++ "/" ++ base) ->
  validate_image f w
  = (inl {| status_code := 400;
            detail := "Invalid file extension. Only .jpg and .jpeg are supported. Received: " |},
     w).
Proof.
  intros Hct Hn Hne Hb Hname.
  rewrite validate_image_spec.
  unfold unsupported_content_type, missing_filename, unsupported_extension,
    extension_error, extension_of.
  rewrite Hct, Hn, (splitext_no_dot name base Hb Hname).
  destruct name; [congruence | reflexivity].
Qed.

Lemma X11_name_without_extension_rejected_witness :
  validate_image dotted_directory fresh_world
  = (inl {| status_code := 400;
            detail := "Invalid file extension. Only .jpg and .jpeg are supported. Received: " |},
     fresh_world).
Proof.
  apply (X11_name_without_extension_rejected dotted_directory fresh_world
           "scans.jpg/photo" "photo").
  - reflexivity.
  - reflexivity.
  - discriminate.
  - reflexivity.
  - right. exists "scans.jpg". reflexivity.
Defined.

(** *** What a response depends on *)

(** The guards read the content type, the file name and the length of
    the payload, and nothing else. *)
Lemma first_failure_by_labels (f g : UploadFile) :
  content_type f = content_type g ->
  filename f = filename g ->
  Py.len (file f) = Py.len (file g) ->
  first_failure f = first_failure g.
Proof.
  intros Hc Hn Hl.
  assert (H1 : unsupported_content_type f = unsupported_content_type g)
    by (unfold unsupported_content_type; now rewrite Hc).
  assert (H2 : missing_filename f = missing_filename g)
    by (unfold missing_filename; now rewrite Hn).
  assert (Hx : extension_of f = extension_of g)
    by (unfold extension_of; now rewrite Hn).
  assert (H3 : unsupported_extension f = unsupported_extension g)
    by (unfold unsupported_extension; now rewrite Hx).
  assert (H4 : oversized f = oversized g)
    by (unfold oversized; now rewrite Hl).
  assert (H5 : empty_payload f = empty_payload g)
    by (unfold empty_payload; now rewrite Hl).
  unfold first_failure, validation_checks. cbn [find fst snd].
  rewrite H1, H2, H3, H4, H5.
  destruct (unsupported_content_type g);
    [cbn [snd]; unfold content_type_error; now rewrite Hc|].
  destruct (missing_filename g); [reflexivity|].
  destruct (unsupported_extension g);
    [cbn [snd]; unfold extension_error; now rewrite Hx|].
  destruct (oversized g); [reflexivity|].
  destruct (empty_payload g); reflexivity.
Qed.

(** X12: the log has no part in a response, and the calls on record
    only through the provider: when the client answers the upload alike
    in two worlds, the two responses are the same. *)
Theorem X12_response_independent_of_world
  (vc : option Vision.ImageAnnotatorClient) (elapsed : Z)
  (f : UploadFile) (w w' : World) :
  (forall client,
     vc = Some client ->
     client (provider_calls w) (file f) = client (provider_calls w') (file f)) ->
  fst (post_extract_text vc elapsed f w)
  = fst (post_extract_text vc elapsed f w').
Proof.
  intros Hsame.
  destruct (post_extract_text_cases vc elapsed f w)
    as [(e & Hff & _ & ->) | (_ & Hf & Hs & _ & _)].
  - now destruct (post_extract_text_rejected vc elapsed f w' e Hff) as [_ ->].
  - rewrite !(post_extract_text_past_guards vc elapsed f _ Hf Hs).
    destruct vc as [client|]; [|reflexivity].
    cbv zeta. rewrite (Hsame client eq_refl).
    now destruct (Py.truthy _).
Qed.

Lemma X12_response_independent_of_world_witness :
  fst (post_extract_text (Some hello_client) 7 test_jpg fresh_world)
  = fst (post_extract_text (Some hello_client) 7 test_jpg
           {| provider_calls := [SAMPLE_JPEG];
              log := [(INFO, "Successfully processed test.jpg")] |}).
Proof.
  apply (X12_response_independent_of_world (Some hello_client) 7 test_jpg).
  intros client Hc. injection Hc as <-. reflexivity.
Defined.

(** X13: the extraction by itself.  It raises 503 exactly when there is
    no client, and 400 "Empty image content" exactly when there is a
    client and the bytes are empty; in both cases the provider is not
    asked.  With a client and bytes it asks the provider once, with
    these bytes. *)
Theorem X13_extraction_edge_cases
  (vc : option Vision.ImageAnnotatorClient) (image : Py.bytes) (w : World) :
  let outcome := extract_text_from_image vc image w in
  (fst outcome
   = inl {| status_code := 503; detail := "Vision API service unavailable" |}
   <-> vc = None)
  /\ (fst outcome
      = inl {| status_code := 400; detail := "Empty image content" |}
      <-> vc <> None /\ image = [])
  /\ (vc = None \/ image = [] ->
      provider_calls (snd outcome) = provider_calls w)
  /\ (vc <> None -> image <> [] ->
      provider_calls (snd outcome) = (provider_calls w ++ [image])%list).
Proof.
  cbv zeta. destruct vc as [client|].
  - destruct image as [|b image].
    + rewrite extract_text_from_image_empty. cbn [fst snd].
      split; [split; discriminate|].
      split; [split; [intros _; split; [discriminate | reflexivity]
                     | reflexivity]|].
      split; [reflexivity | congruence].
    + assert (Hne : b :: image <> []) by discriminate.
      destruct (Py.truthy (Vision.message
                  (Vision.error (client (provider_calls w) (b :: image)))))
        eqn:Herr.
      * rewrite (extract_text_from_image_provider_error _ _ _ Hne Herr).
        cbn [fst snd provider_calls].
        split; [split; discriminate|].
        split; [split; [discriminate | intros [_ H]; discriminate H]|].
        split; [intros [H | H]; discriminate H | reflexivity].
      * rewrite (extract_text_from_image_answer _ _ _ Hne Herr).
        cbn [fst snd provider_calls].
        split; [split; discriminate|].
        split; [split; [discriminate | intros [_ H]; discriminate H]|].
        split; [intros [H | H]; discriminate H | reflexivity].
  - rewrite extract_text_from_image_unavailable. cbn [fst snd provider_calls].
    split; [split; reflexivity|].
    split; [split; [discriminate | intros [H _]; congruence]|].
    split; [reflexivity | congruence].
Qed.

Lemma X13_extraction_edge_cases_witness :
  fst (extract_text_from_image None [] fresh_world)
  = inl {| status_code := 503; detail := "Vision API service unavailable" |}
  /\ provider_calls
       (snd (extract_text_from_image (Some hello_client) SAMPLE_JPEG fresh_world))
     = [SAMPLE_JPEG].
Proof.
  pose proof (X13_extraction_edge_cases None [] fresh_world) as (H503 & _).
  pose proof (X13_extraction_edge_cases (Some hello_client) SAMPLE_JPEG
                fresh_world) as (_ & _ & _ & Hcall).
  split.
  - apply (proj2 H503). reflexivity.
  - apply Hcall; discriminate.
Defined.

(** X14: the guards never look into the payload.  Two uploads with the
    same content type, file name and payload length are rejected with
    the same error or pass together; bytes that are no JPEG pass under
    JPEG labels. *)
Theorem X14_guards_ignore_payload_bytes
  (f g : UploadFile) (w w' : World) :
  content_type f = content_type g ->
  filename f = filename g ->
  Py.len (file f) = Py.len (file g) ->
  (forall e,
     fst (extract_text_guards f w) = inl e
     <-> fst (extract_text_guards g w') = inl e)
  /\ (fst (extract_text_guards f w) = inr (file f, Py.len (file f))
      <-> fst (extract_text_guards g w') = inr (file g, Py.len (file g))).
Proof.
  intros Hc Hn Hl.
  pose proof (first_failure_by_labels f g Hc Hn Hl) as Hff.
  rewrite !extract_text_guards_spec, Hff. cbn [fst].
  split.
  - intros e. destruct (first_failure g); split; intros H;
      try discriminate H; exact H.
  - destruct (first_failure g); split; intros H; try discriminate H;
      reflexivity.
Qed.

Lemma X14_guards_ignore_payload_bytes_witness :
  fst (extract_text_guards mislabelled_png fresh_world)
  = inr (file mislabelled_png, Py.len (file mislabelled_png)).
Proof.
  apply (proj1 (proj2 (X14_guards_ignore_payload_bytes test_jpg mislabelled_png
                         fresh_world fresh_world eq_refl eq_refl eq_refl))).
  reflexivity.
Defined.

(** X16: [validate_image] raises 400 "Filename is required" exactly
    when the content type is an allowed one and the file name is
    missing or empty; with another content type the error on the file
    format comes first. *)
Theorem X16_missing_or_empty_filename (f : UploadFile) (w : World) :
  validate_image f w
  = (inl {| status_code := 400; detail := "Filename is required" |}, w)
  <-> (Py.opt_in (content_type f) ALLOWED_CONTENT_TYPES = true
       /\ (filename f = None \/ filename f = Some "")).
Proof.
  rewrite validate_image_spec.
  unfold unsupported_content_type, missing_filename, unsupported_extension,
    content_type_error, filename_error, extension_error, extension_of.
  destruct (Py.opt_in (content_type f) ALLOWED_CONTENT_TYPES); cbn [negb].
  - destruct (filename f) as [[|c name]|]; cbn [Py.truthy_opt Py.truthy negb].
    + split; [intros _; split; [reflexivity | now right] | reflexivity].
    + split; [|intros [_ [H | H]]; discriminate H].
      destruct (negb _); [cbn; discriminate | discriminate].
    + split; [intros _; split; [reflexivity | now left] | reflexivity].
  - split; [cbn; discriminate | intros [H _]; discriminate H].
Qed.

Lemma X16_missing_or_empty_filename_witness :
  validate_image no_filename fresh_world
  = (inl {| status_code := 400; detail := "Filename is required" |},
     fresh_world).
Proof.
  apply (proj2 (X16_missing_or_empty_filename no_filename fresh_world)).
  split; [reflexivity | now left].
Defined.

(** *** Requests whose provider call can raise *)

(** The response to an upload that a guard rejects, for any client. *)
Lemma raising_post_rejected
  (vc : option Raising.ImageAnnotatorClient) (elapsed : Z)
  (f : UploadFile) (w : World) (e : HTTPException) :
  first_failure f = Some e ->
  Raising.post_extract_text vc elapsed f w
  = (Raising.Json (handle_exception e), w).
Proof.
  intros He.
  unfold Raising.post_extract_text, Raising.extract_text, Raising.bind,
    Raising.lift.
  now rewrite extract_text_guards_spec, He.
Qed.

(** The response to an upload that passes every guard: 503 without a
    client, the plain text of the server-error middleware when the call
    raises, 500 on an error message of the provider, 200 otherwise. *)
Lemma raising_post_past_guards
  (vc : option Raising.ImageAnnotatorClient) (elapsed : Z)
  (f : UploadFile) (w : World) :
  format_ok f = true -> 0 < Py.len (file f) <= MAX_FILE_SIZE ->
  Raising.post_extract_text vc elapsed f w =
  match vc with
  | None =>
      (Raising.Json
         {| resp_status_code := 503;
            resp_content := DetailBody "Vision API service unavailable" |},
       {| provider_calls := provider_calls w;
          log := (log w ++ [(ERROR, "Vision API client not initialized")])%list |})
  | Some client =>
      match client (provider_calls w) (file f) with
      | inl _ =>
          (Raising.server_error,
           {| provider_calls := (provider_calls w ++ [file f])%list;
              log := log w |})
      | inr response =>
          if Py.truthy (Vision.message (Vision.error response)) then
            (Raising.Json
               {| resp_status_code := 500;
                  resp_content :=
                    DetailBody "Failed to process image with Vision API" |},
             {| provider_calls := (provider_calls w ++ [file f])%list;
                log := (log w ++
                        [(ERROR, ("Vision API error: "
                                  ++ Vision.message (Vision.error response))%string)])%list |})
          else
            let result :=
              match Vision.text_annotations response with
              | [] => ("", 0%float)
              | first :: _ =>
                  (Vision.description first,
                   if Py.truthy (Vision.description first)
                   then 0.95%float else 0%float)
              end in
            (Raising.Json
               {| resp_status_code := 200;
                  resp_content :=
                    SuccessBody
                      {| success := true;
                         text := fst result;
                         confidence := snd result;
                         processing_time_ms := elapsed;
                         metadata := {| md_filename := filename f;
                                        md_file_size_bytes := Py.len (file f);
                                        md_content_type := content_type f |} |} |},
             {| provider_calls := (provider_calls w ++ [file f])%list;
                log := (log w ++ [(INFO, ("Successfully processed "
                                          ++ Py.format_opt (filename f))%string)])%list |})
      end
  end.
Proof.
  intros Hf Hs.
  pose proof (nonempty_of_len _ (proj1 Hs)) as Hne.
  unfold Raising.post_extract_text, Raising.extract_text, Raising.bind,
    Raising.lift.
  rewrite (extract_text_guards_pass f w Hf Hs).
  destruct vc as [client|]; [|reflexivity].
  destruct (file f) as [|b image] eqn:Hfile; [congruence|].
  unfold Raising.extract_text_from_image, Raising.bind, Raising.text_detection.
  cbv zeta.
  destruct (client (provider_calls w) (b :: image)) as [exc|response];
    [reflexivity|].
  destruct (Py.truthy (Vision.message (Vision.error response)));
    [reflexivity|].
  now destruct (Vision.text_annotations response).
Qed.

(** With a provider whose call returns, the handler of this section is
    the handler of the sections above. *)
Lemma raising_post_answering
  (vc : option Vision.ImageAnnotatorClient) (elapsed : Z)
  (f : UploadFile) (w : World) :
  Raising.post_extract_text (option_map Raising.answering vc) elapsed f w
  = (Raising.Json (fst (post_extract_text vc elapsed f w)),
     snd (post_extract_text vc elapsed f w)).
Proof.
  destruct (post_extract_text_cases vc elapsed f w)
    as [(e & Hff & _ & ->) | (_ & Hf & Hs & _ & _)].
  - now rewrite (raising_post_rejected _ elapsed f w e Hff).
  - rewrite (raising_post_past_guards _ elapsed f w Hf Hs).
    rewrite (post_extract_text_past_guards vc elapsed f w Hf Hs).
    destruct vc as [client|]; cbn [option_map]; [|reflexivity].
    unfold Raising.answering. cbv zeta.
    now destruct (Py.truthy _).
Qed.

(** X1: whenever the route handler of [POST /extract-text] runs on an
    uploaded file, the response has one of the statuses 200, 400, 413,
    500 and 503, and the body goes with the status: the success model
    under 200, the failure envelope under 413, a detail that is never
    empty under 400 and 503, and under 500 either the fixed detail of a
    provider error or, when the call to the provider raised, the plain
    text of the server-error middleware. *)
Theorem X1_status_and_body_shapes
  (vc : option Raising.ImageAnnotatorClient) (elapsed : Z)
  (f : UploadFile) (w : World) :
  let r := fst (Raising.post_extract_text vc elapsed f w) in
  (exists m,
     r = Raising.Json {| resp_status_code := 200;
                         resp_content := SuccessBody m |})
  \/ (exists s d,
        r = Raising.Json {| resp_status_code := s;
                            resp_content := DetailBody d |}
        /\ (s = 400 \/ s = 503) /\ d <> "")
  \/ r = Raising.Json {| resp_status_code := 413;
                         resp_content := ErrorBody payload_too_large_envelope |}
  \/ (r = Raising.Json
            {| resp_status_code := 500;
               resp_content :=
                 DetailBody "Failed to process image with Vision API" |}
      /\ exists client response,
           vc = Some client
           /\ client (provider_calls w) (file f) = inr response
           /\ Vision.message (Vision.error response) <> "")
  \/ (r = Raising.PlainText 500 "Internal Server Error"
      /\ exists client exception,
           vc = Some client
           /\ client (provider_calls w) (file f) = inl exception).
Proof.
  cbv zeta. destruct (first_failure f) as [e|] eqn:Hff.
  - rewrite (raising_post_rejected vc elapsed f w e Hff). cbn [fst].
    destruct (first_failure_shape f e Hff) as [Hd [[_ ->] | [_ ->]]].
    + right; left. exists 400, (detail e). repeat split; [now left | exact Hd].
    + right; right; left. reflexivity.
  - destruct (proj1 (first_failure_none f) Hff) as [Hf Hs].
    rewrite (raising_post_past_guards vc elapsed f w Hf Hs).
    destruct vc as [client|].
    + destruct (client (provider_calls w) (file f)) as [exc|response] eqn:Hcall.
      * right; right; right; right. split; [reflexivity|].
        now exists client, exc.
      * destruct (Py.truthy (Vision.message (Vision.error response))) eqn:Herr.
        -- right; right; right; left. split; [reflexivity|].
           exists client, response. repeat split; [exact Hcall|].
           intros H. rewrite H in Herr. discriminate Herr.
        -- left. eexists. reflexivity.
    + right; left. eexists 503, _. repeat split; [now right | discriminate].
Qed.


(** X15: requests add up.  After two uploads that pass the guards, with
    a client, the provider has been called for the first and then for
    the second, the second time with the first on record, whether the
    calls returned or raised.  The log has grown by one record for each
    call that returned and by none for a call that raised.  The second
    response has status 500 exactly when the second call raised or
    answered with an error message. *)
Theorem X15_two_requests_in_a_row
  (client : Raising.ImageAnnotatorClient) (elapsed elapsed' : Z)
  (f g : UploadFile) (w : World) :
  fst (extract_text_guards f w) = inr (file f, Py.len (file f)) ->
  fst (extract_text_guards g w) = inr (file g, Py.len (file g)) ->
  let first := Raising.post_extract_text (Some client) elapsed f w in
  let second := Raising.post_extract_text (Some client) elapsed' g (snd first) in
  let call1 := client (provider_calls w) (file f) in
  let call2 := client (provider_calls w ++ [file f])%list (file g) in
  provider_calls (snd second) = (provider_calls w ++ [file f; file g])%list
  /\ (exists l1 l2,
        log (snd second) = (log w ++ l1 ++ l2)%list
        /\ List.length l1
           = match call1 with inl _ => 0%nat | inr _ => 1%nat end
        /\ List.length l2
           = match call2 with inl _ => 0%nat | inr _ => 1%nat end)
  /\ (Raising.status_of (fst second) = 500
      <-> match call2 with
          | inl _ => True
          | inr response => Vision.message (Vision.error response) <> ""
          end).
Proof.
  intros Hgf Hgg. cbv zeta.
  rewrite extract_text_guards_spec in Hgf, Hgg. cbn [fst] in Hgf, Hgg.
  destruct (first_failure f) eqn:Hff; [discriminate Hgf|].
  destruct (first_failure g) eqn:Hfg; [discriminate Hgg|].
  destruct (proj1 (first_failure_none f) Hff) as [Hf Hs].
  destruct (proj1 (first_failure_none g) Hfg) as [Hf' Hs'].
  assert (Hw1 : exists l1,
             snd (Raising.post_extract_text (Some client) elapsed f w)
             = {| provider_calls := (provider_calls w ++ [file f])%list;
                  log := (log w ++ l1)%list |}
             /\ List.length l1
                = match client (provider_calls w) (file f) with
                  | inl _ => 0%nat
                  | inr _ => 1%nat
                  end).
  { rewrite (raising_post_past_guards _ elapsed f w Hf Hs).
    destruct (client (provider_calls w) (file f)) as [exc|response].
    - exists []. now rewrite app_nil_r.
    - destruct (Py.truthy _); eexists; split; reflexivity. }
  destruct Hw1 as (l1 & -> & Hl1).
  rewrite (raising_post_past_guards _ elapsed' g _ Hf' Hs').
  cbn [provider_calls log].
  destruct (client (provider_calls w ++ [file f])%list (file g))
    as [exc|response].
  - cbn [fst snd provider_calls log Raising.status_of Raising.server_error].
    rewrite <- app_assoc. split; [reflexivity|]. split.
    + exists l1, []. now rewrite app_nil_r.
    + split; [intros _; exact I | reflexivity].
  - destruct (Py.truthy (Vision.message (Vision.error response))) eqn:Herr;
      cbn [fst snd provider_calls log Raising.status_of resp_status_code];
      rewrite <- !app_assoc; (split; [reflexivity|]);
      (split; [eexists l1, [_]; now split|]).
    + split; [intros _ H; rewrite H in Herr; discriminate Herr | reflexivity].
    + split; [discriminate|]. intros H. apply truthy_false_iff in Herr.
      congruence.
Qed.

Lemma X15_two_requests_in_a_row_witness :
  provider_calls
    (snd (Raising.post_extract_text (Some warming_client) 7 test_jpg
            (snd (Raising.post_extract_text (Some warming_client) 7 test_jpg
                    fresh_world))))
  = [SAMPLE_JPEG; SAMPLE_JPEG].
Proof.
  exact (proj1 (X15_two_requests_in_a_row warming_client 7 7 test_jpg test_jpg
                  fresh_world eq_refl eq_refl)).
Defined.

(** The cases of a raising provider, evaluated. *)
Example raising_call_gives_plain_500 :
  Raising.post_extract_text (Some deadline_client) 7 test_jpg fresh_world
  = (Raising.PlainText 500 "Internal Server Error",
     {| provider_calls := [SAMPLE_JPEG]; log := [] |}).
Proof. reflexivity. Qed.

Example raising_call_then_answer :
  fst (Raising.post_extract_text (Some warming_client) 7 test_jpg
         (snd (Raising.post_extract_text (Some warming_client) 7 test_jpg
                 fresh_world)))
  = Raising.Json
      {| resp_status_code := 200;
         resp_content :=
           SuccessBody
             {| success := true;
                text := "Hello World";
                confidence := 0.95%float;
                processing_time_ms := 7;
                metadata := {| md_filename := Some "test.jpg";
                               md_file_size_bytes := 8;
                               md_content_type := Some "image/jpeg" |} |} |}.
Proof. reflexivity. Qed.
